(** * Metric roll-up accumulators of [aggregator/types.py]

    A shallow embedding of the classes [Gauge], [BucketGauge], [Count],
    [MonotonicCount], [Counter], [Histogram], [Set] and [Rate], followed by
    the properties of their [sample] and [flush] methods.

    Conventions of the embedding:
    - a Python number is an [int] (unbounded, [Z]) or a [float] (binary64,
      the kernel's primitive floats), with Python's coercions written out;
    - a method is a function from the object's state to an outcome and the
      state the call leaves behind; an outcome is a returned value or a
      raised exception, so that [try]/[finally] and early returns keep
      their meaning;
    - the wall clock read by [time()] is an explicit argument [now];
    - the two language levels the file runs under differ in [/] on two
      integers and in [round]; both are modelled, selected by [pyver]. *)

From Stdlib Require Import ZArith Lia PrimFloat SpecFloat FloatOps DecimalString.
From stdpp Require Import base option list strings gmap.

Set Warnings "-inexact-float".
Open Scope Z_scope.

(** ** Exceptions and outcomes *)

Inductive exn :=
  | ZeroDivisionError
  | OverflowError
  | ValueError
  | IndexError
  | Infinity
  | UnknownValue.

Inductive outcome (A : Type) :=
  | Returned (a : A)
  | Raised (e : exn).
Arguments Returned {A} a.
Arguments Raised {A} e.

#[export] Instance outcome_ret : MRet outcome := fun A a => Returned a.
#[export] Instance outcome_bind : MBind outcome := fun A B k m =>
  match m with
  | Returned a => k a
  | Raised e => Raised e
  end.

Definition returns {A} (m : outcome A) : bool :=
  match m with Returned _ => true | Raised _ => false end.

(** ** Python numbers *)

Inductive pyver := Py2 | Py3.

Inductive pynum :=
  | PyInt (z : Z)
  | PyFloat (f : float).

Module Py.

(** [float(z)]: nearest binary64, ties to even; an integer that rounds
    past the largest finite value raises [OverflowError]. *)
Definition float_of_Z (z : Z) : outcome float :=
  let f := SF2Prim (binary_normalize prec emax z 0 false) in
  if is_infinity f then Raised OverflowError else Returned f.

Definition as_float (x : pynum) : outcome float :=
  match x with
  | PyInt z => float_of_Z z
  | PyFloat f => Returned f
  end.

(** [int(f)]: truncation toward zero. *)
Definition Z_of_float (f : float) : outcome Z :=
  match Prim2SF f with
  | S754_zero _ => Returned 0
  | S754_infinity _ => Raised OverflowError
  | S754_nan => Raised ValueError
  | S754_finite s m e => Returned (cond_Zopp s (Z.shiftl (Z.pos m) e))
  end.

Definition as_int (x : pynum) : outcome Z :=
  match x with
  | PyInt z => Returned z
  | PyFloat f => Z_of_float f
  end.

(** Binary arithmetic: two integers stay exact, anything else is carried
    out on floats after converting the integer operand. *)
Definition arith (fz : Z -> Z -> Z) (ff : float -> float -> float)
    (x y : pynum) : outcome pynum :=
  match x, y with
  | PyInt a, PyInt b => Returned (PyInt (fz a b))
  | _, _ => a ← as_float x; b ← as_float y; Returned (PyFloat (ff a b))
  end.

Definition add := arith Z.add PrimFloat.add.
Definition sub := arith Z.sub PrimFloat.sub.
Definition mul := arith Z.mul PrimFloat.mul.

(** True division of two integers: the exact quotient rounded once.  The
    dividend is scaled so that the integer quotient has more than 64
    bits, and a non-zero remainder is kept as a sticky last bit. *)
Definition truediv_Z (a b : Z) : outcome float :=
  if b =? 0 then Raised ZeroDivisionError
  else if a =? 0 then Returned (SF2Prim (S754_zero (b <? 0)))
  else
    let k := Z.max 0 (66 + Z.log2 (Z.abs b) - Z.log2 (Z.abs a)) in
    let n := Z.shiftl (Z.abs a) k in
    let q := n / Z.abs b in
    let m := 2 * q + (if n mod Z.abs b =? 0 then 0 else 1) in
    let f := SF2Prim (binary_normalize prec emax
                        (cond_Zopp (xorb (a <? 0) (b <? 0)) m) (- k - 1) false) in
    if is_infinity f then Raised OverflowError else Returned f.

(** [x / y]. *)
Definition div (v : pyver) (x y : pynum) : outcome pynum :=
  match x, y with
  | PyInt a, PyInt b =>
      match v with
      | Py2 => if b =? 0 then Raised ZeroDivisionError else Returned (PyInt (a / b))
      | Py3 => f ← truediv_Z a b; Returned (PyFloat f)
      end
  | _, _ =>
      a ← as_float x; b ← as_float y;
      if (b =? 0)%float then Raised ZeroDivisionError
      else Returned (PyFloat (a / b)%float)
  end.

(** Exact comparison of an integer with a float; [None] for a NaN. *)
Definition compare_Z_float (z : Z) (f : float) : option comparison :=
  match Prim2SF f with
  | S754_nan => None
  | S754_zero _ => Some (z ?= 0)
  | S754_infinity s => Some (if s then Gt else Lt)
  | S754_finite s m e =>
      if 0 <=? e then Some (z ?= cond_Zopp s (Z.shiftl (Z.pos m) e))
      else Some (Z.shiftl z (- e) ?= cond_Zopp s (Z.pos m))
  end.

(** [x < y]. *)
Definition lt (x y : pynum) : bool :=
  match x, y with
  | PyInt a, PyInt b => a <? b
  | PyFloat a, PyFloat b => (a <? b)%float
  | PyInt a, PyFloat b =>
      match compare_Z_float a b with Some Lt => true | _ => false end
  | PyFloat a, PyInt b =>
      match compare_Z_float b a with Some Gt => true | _ => false end
  end.

(** Truth value of a number: zero is false. *)
Definition truth (x : pynum) : bool :=
  match x with
  | PyInt z => negb (z =? 0)
  | PyFloat f => negb (f =? 0)%float
  end.

(** [x or d] for an attribute that may be [None]. *)
Definition or (x : option pynum) (d : pynum) : pynum :=
  match x with
  | Some n => if truth n then n else d
  | None => d
  end.

(** [max(0, x)]: the first argument unless the second is greater. *)
Definition max0 (x : pynum) : pynum :=
  if lt (PyInt 0) x then x else PyInt 0.

(** The integer nearest to [m * 2^e] for [e < 0]; [even] selects ties to
    even, otherwise ties go away from zero. *)
Definition nearest (even : bool) (m : positive) (e : Z) : Z :=
  let q := Z.shiftl (Z.pos m) e in
  let r := Z.pos m - Z.shiftl q (- e) in
  let half := Z.shiftl 1 (- e - 1) in
  if r <? half then q
  else if half <? r then q + 1
  else if even && Z.even q then q else q + 1.

(** [round(x)].  Python 2 answers with a float and rounds halves away
    from zero; Python 3 answers with an integer and rounds halves to
    even. *)
Definition round (v : pyver) (x : pynum) : outcome pynum :=
  match v, x with
  | Py2, PyInt z => f ← float_of_Z z; Returned (PyFloat f)
  | Py3, PyInt z => Returned (PyInt z)
  | Py2, PyFloat f =>
      match Prim2SF f with
      | S754_finite s m e =>
          if e <? 0 then
            let n := nearest false m e in
            if n =? 0 then Returned (PyFloat (SF2Prim (S754_zero s)))
            else g ← float_of_Z (cond_Zopp s n); Returned (PyFloat g)
          else Returned (PyFloat f)
      | _ => Returned (PyFloat f)
      end
  | Py3, PyFloat f =>
      match Prim2SF f with
      | S754_zero _ => Returned (PyInt 0)
      | S754_infinity _ => Raised OverflowError
      | S754_nan => Raised ValueError
      | S754_finite s m e =>
          if e <? 0 then Returned (PyInt (cond_Zopp s (nearest true m e)))
          else Returned (PyInt (cond_Zopp s (Z.shiftl (Z.pos m) e)))
      end
  end.

(** [sum(l)]: left to right from the integer [0]. *)
Fixpoint sum_from (acc : pynum) (l : list pynum) : outcome pynum :=
  match l with
  | [] => Returned acc
  | x :: l' => acc' ← add acc x; sum_from acc' l'
  end.
Definition sum := sum_from (PyInt 0).

(** [l.sort()]: a stable sort by [<]. *)
Fixpoint insert (x : pynum) (l : list pynum) : list pynum :=
  match l with
  | [] => [x]
  | y :: l' => if lt x y then x :: y :: l' else y :: insert x l'
  end.
Definition sort (l : list pynum) : list pynum :=
  fold_left (fun acc x => insert x acc) l [].

(** [l[i]], negative indices counting from the end. *)
Definition index {A} (l : list A) (i : Z) : outcome A :=
  let n := Z.of_nat (length l) in
  let j := if i <? 0 then n + i else i in
  if (0 <=? j) && (j <? n) then
    match l !! Z.to_nat j with
    | Some a => Returned a
    | None => Raised IndexError
    end
  else Raised IndexError.

(** [str(z)] as ['%s'] prints an integer. *)
Definition str (z : Z) : string := NilZero.string_of_int (Z.to_int z).

End Py.

(** ** The formatter and the calls it receives *)

(** [MetricTypes]. *)
Inductive MetricTypes := GAUGE | COUNTER | RATE | COUNT.

(** A keyword argument of a call: passed with a value, or left out. *)
Inductive kwarg (A : Type) :=
  | Passed (a : A)
  | Omitted.
Arguments Passed {A} a.
Arguments Omitted {A}.

(** The keyword arguments of one [self.formatter(...)] call.  Every call
    site of the module passes [metric], [timestamp], [value], [tags],
    [hostname], [metric_type] and [interval]; [device_name] is the one
    keyword that a call site leaves out. *)
Module Kw.
Record t := mk {
  metric : string;
  timestamp : pynum;
  value : pynum;
  tags : list string;
  hostname : option string;
  device_name : kwarg (option string);
  metric_type : MetricTypes;
  interval : pynum;
}.
End Kw.

(** ** The base class

    [Metric] declares [sample(value, sample_rate, timestamp=None)] and
    [flush(timestamp, interval)].  [V] is the type of sampled values, [R]
    the type of formatted records; [now] is what [time()] returns during
    the call. *)
Class Metric (S V R : Type) := {
  sample : S -> V -> pynum -> option pynum -> float -> outcome unit * S;
  flush : S -> pynum -> pynum -> outcome (list R) * S;
}.

(** One call made on an accumulator by its owner. *)
Inductive call (V : Type) :=
  | CallSample (value : V) (sample_rate : pynum) (timestamp : option pynum)
      (now : float)
  | CallFlush (timestamp interval : pynum).
Arguments CallSample {V} value sample_rate timestamp now.
Arguments CallFlush {V} timestamp interval.

(** What the owner observes of a call. *)
Inductive observed (R : Type) :=
  | Sampled (o : outcome unit)
  | Flushed (o : outcome (list R)).
Arguments Sampled {R} o.
Arguments Flushed {R} o.

Section Run.
Context {S V R : Type} (M : Metric S V R).

Definition step (self : S) (c : call V) : observed R * S :=
  match c with
  | CallSample v r t now => let '(o, s) := sample self v r t now in (Sampled o, s)
  | CallFlush t i => let '(o, s) := flush self t i in (Flushed o, s)
  end.

(** A sequence of calls: everything observed, and the final state. *)
Fixpoint run (self : S) (cs : list (call V)) : list (observed R) * S :=
  match cs with
  | [] => ([], self)
  | c :: cs' =>
      let '(o, s) := step self c in
      let '(os, s') := run s cs' in
      (o :: os, s')
  end.
End Run.

(** A call with its sample rate taken out: what two runs that differ only
    in the sample rates have in common. *)
Definition forget_rate {V} (c : call V) : call V :=
  match c with
  | CallSample v _ t now => CallSample v (PyInt 1) t now
  | CallFlush t i => CallFlush t i
  end.

(** ** Gauge *)

Module Gauge.
Section Gauge.
Context {R : Type}.

Record t := mk {
  formatter : Kw.t -> R;
  name : string;
  value : option pynum;
  tags : list string;
  hostname : option string;
  device_name : option string;
  last_sample_time : option float;
  timestamp : option pynum;
}.

Definition init (formatter : Kw.t -> R) (name : string) (tags : list string)
    (hostname device_name : option string) (now : float) : t :=
  {| formatter := formatter; name := name; value := None; tags := tags;
     hostname := hostname; device_name := device_name;
     last_sample_time := None; timestamp := Some (PyFloat now) |}.

Definition sample (self : t) (v : pynum) (sample_rate : pynum)
    (ts : option pynum) (now : float) : outcome unit * t :=
  (Returned (),
   {| formatter := formatter self; name := name self; value := Some v;
      tags := tags self; hostname := hostname self;
      device_name := device_name self;
      last_sample_time := Some now; timestamp := ts |}).

Definition clear (self : t) : t :=
  {| formatter := formatter self; name := name self; value := None;
     tags := tags self; hostname := hostname self;
     device_name := device_name self;
     last_sample_time := last_sample_time self;
     timestamp := timestamp self |}.

Definition flush (self : t) (ts interval : pynum) : outcome (list R) * t :=
  match value self with
  | Some v =>
      let res := [formatter self
        {| Kw.metric := name self;
           Kw.timestamp := Py.or (timestamp self) ts;
           Kw.value := v;
           Kw.tags := tags self;
           Kw.hostname := hostname self;
           Kw.device_name := Passed (device_name self);
           Kw.metric_type := GAUGE;
           Kw.interval := interval |}] in
      (Returned res, clear self)
  | None => (Returned [], self)
  end.

Definition metric : Metric t pynum R := Build_Metric t pynum R sample flush.
End Gauge.
Arguments t R : clear implicits.
End Gauge.

(** ** BucketGauge: a [Gauge] whose [flush] is overridden *)

Module BucketGauge.
Section BucketGauge.
Context {R : Type}.

(** The subclass adds no attribute and inherits [__init__] and
    [sample]. *)
Definition t := Gauge.t R.
Definition init := @Gauge.init R.
Definition sample := @Gauge.sample R.

Definition flush (self : t) (ts interval : pynum) : outcome (list R) * t :=
  match Gauge.value self with
  | Some v =>
      let res := [Gauge.formatter self
        {| Kw.metric := Gauge.name self;
           Kw.timestamp := ts;
           Kw.value := v;
           Kw.tags := Gauge.tags self;
           Kw.hostname := Gauge.hostname self;
           Kw.device_name := Passed (Gauge.device_name self);
           Kw.metric_type := GAUGE;
           Kw.interval := interval |}] in
      (Returned res, Gauge.clear self)
  | None => (Returned [], self)
  end.

Definition metric : Metric t pynum R := Build_Metric t pynum R sample flush.
End BucketGauge.
Arguments t R : clear implicits.
End BucketGauge.

(** ** Count *)

Module Count.
Section Count.
Context {R : Type}.

Record t := mk {
  formatter : Kw.t -> R;
  name : string;
  value : option pynum;
  tags : list string;
  hostname : option string;
  device_name : option string;
  last_sample_time : option float;
}.

Definition init (formatter : Kw.t -> R) (name : string) (tags : list string)
    (hostname device_name : option string) : t :=
  {| formatter := formatter; name := name; value := None; tags := tags;
     hostname := hostname; device_name := device_name;
     last_sample_time := None |}.

Definition update (self : t) (v : option pynum) (lst : option float) : t :=
  {| formatter := formatter self; name := name self; value := v;
     tags := tags self; hostname := hostname self;
     device_name := device_name self; last_sample_time := lst |}.

Definition sample (self : t) (v : pynum) (sample_rate : pynum)
    (ts : option pynum) (now : float) : outcome unit * t :=
  match Py.add (Py.or (value self) (PyInt 0)) v with
  | Returned n => (Returned (), update self (Some n) (Some now))
  | Raised e => (Raised e, self)
  end.

Definition flush (self : t) (ts interval : pynum) : outcome (list R) * t :=
  match value self with
  | None => (Returned [], self)
  | Some v =>
      (* try: return [...]  finally: self.value = None *)
      (Returned [formatter self
         {| Kw.metric := name self;
            Kw.value := v;
            Kw.timestamp := ts;
            Kw.tags := tags self;
            Kw.hostname := hostname self;
            Kw.device_name := Passed (device_name self);
            Kw.metric_type := COUNT;
            Kw.interval := interval |}],
       update self None (last_sample_time self))
  end.

Definition metric : Metric t pynum R := Build_Metric t pynum R sample flush.
End Count.
Arguments t R : clear implicits.
End Count.

(** ** MonotonicCount *)

Module MonotonicCount.
Section MonotonicCount.
Context {R : Type}.

Record t := mk {
  formatter : Kw.t -> R;
  name : string;
  tags : list string;
  hostname : option string;
  device_name : option string;
  prev_counter : option pynum;
  curr_counter : option pynum;
  count : option pynum;
  last_sample_time : option float;
}.

Definition init (formatter : Kw.t -> R) (name : string) (tags : list string)
    (hostname device_name : option string) : t :=
  {| formatter := formatter; name := name; tags := tags;
     hostname := hostname; device_name := device_name;
     prev_counter := None; curr_counter := None; count := None;
     last_sample_time := None |}.

Definition update (self : t) (prev curr cnt : option pynum)
    (lst : option float) : t :=
  {| formatter := formatter self; name := name self; tags := tags self;
     hostname := hostname self; device_name := device_name self;
     prev_counter := prev; curr_counter := curr; count := cnt;
     last_sample_time := lst |}.

Definition sample (self : t) (v : pynum) (sample_rate : pynum)
    (ts : option pynum) (now : float) : outcome unit * t :=
  let self1 :=
    match curr_counter self with
    | None =>
        update self (prev_counter self) (Some v) (count self)
          (last_sample_time self)
    | Some c =>
        update self (Some c) (Some v) (count self) (last_sample_time self)
    end in
  match prev_counter self1, curr_counter self1 with
  | Some prev, Some curr =>
      match (d ← Py.sub curr prev;
             Py.add (Py.or (count self1) (PyInt 0)) (Py.max0 d)) with
      | Returned n =>
          (Returned (),
           update self1 (Some prev) (Some curr) (Some n) (Some now))
      | Raised e => (Raised e, self1)
      end
  | _, _ =>
      (Returned (),
       update self1 (prev_counter self1) (curr_counter self1) (count self1)
         (Some now))
  end.

Definition flush (self : t) (ts interval : pynum) : outcome (list R) * t :=
  match count self with
  | None => (Returned [], self)
  | Some c =>
      (* try: return [...]
         finally: prev_counter = curr_counter; curr_counter = count = None *)
      (Returned [formatter self
         {| Kw.hostname := hostname self;
            Kw.device_name := Passed (device_name self);
            Kw.tags := tags self;
            Kw.metric := name self;
            Kw.value := c;
            Kw.timestamp := ts;
            Kw.metric_type := COUNT;
            Kw.interval := interval |}],
       update self (curr_counter self) None None (last_sample_time self))
  end.

Definition metric : Metric t pynum R := Build_Metric t pynum R sample flush.
End MonotonicCount.
Arguments t R : clear implicits.
End MonotonicCount.

(** ** Counter *)

Module Counter.
Section Counter.
Context {R : Type} (ver : pyver).

Record t := mk {
  formatter : Kw.t -> R;
  name : string;
  value : pynum;
  tags : list string;
  hostname : option string;
  device_name : option string;
  last_sample_time : option float;
}.

Definition init (formatter : Kw.t -> R) (name : string) (tags : list string)
    (hostname device_name : option string) : t :=
  {| formatter := formatter; name := name; value := PyInt 0; tags := tags;
     hostname := hostname; device_name := device_name;
     last_sample_time := None |}.

Definition update (self : t) (v : pynum) (lst : option float) : t :=
  {| formatter := formatter self; name := name self; value := v;
     tags := tags self; hostname := hostname self;
     device_name := device_name self; last_sample_time := lst |}.

Definition sample (self : t) (v : pynum) (sample_rate : pynum)
    (ts : option pynum) (now : float) : outcome unit * t :=
  match (q ← Py.div ver (PyInt 1) sample_rate;
         k ← Py.as_int q;
         d ← Py.mul v (PyInt k);
         Py.add (value self) d) with
  | Returned n => (Returned (), update self n (Some now))
  | Raised e => (Raised e, self)
  end.

Definition flush (self : t) (ts interval : pynum) : outcome (list R) * t :=
  (* try: value = self.value / interval; return [...]
     finally: self.value = 0 *)
  (v ← Py.div ver (value self) interval;
   Returned [formatter self
     {| Kw.metric := name self;
        Kw.value := v;
        Kw.timestamp := ts;
        Kw.tags := tags self;
        Kw.hostname := hostname self;
        Kw.device_name := Passed (device_name self);
        Kw.metric_type := RATE;
        Kw.interval := interval |}],
   update self (PyInt 0) (last_sample_time self)).

Definition metric : Metric t pynum R := Build_Metric t pynum R sample flush.
End Counter.
Arguments t R : clear implicits.
End Counter.

(** ** Histogram *)

Definition DEFAULT_HISTOGRAM_AGGREGATES : list string :=
  ["max"; "median"; "avg"; "count"]%string.
Definition DEFAULT_HISTOGRAM_PERCENTILES : list pynum :=
  [PyFloat 0.95].

(** The keys of [extra_config] that [Histogram] reads; [None] stands for a
    key that is missing or bound to [None]. *)
Record extra_config := {
  cfg_aggregates : option (list string);
  cfg_percentiles : option (list pynum);
}.

Module Histogram.
Section Histogram.
Context {R : Type} (ver : pyver).

Record t := mk {
  formatter : Kw.t -> R;
  name : string;
  count : Z;
  samples : list pynum;
  aggregates : list string;
  percentiles : list pynum;
  tags : list string;
  hostname : option string;
  device_name : option string;
  last_sample_time : option float;
}.

Definition init (formatter : Kw.t -> R) (name : string) (tags : list string)
    (hostname device_name : option string) (cfg : option extra_config) : t :=
  {| formatter := formatter; name := name; count := 0; samples := [];
     aggregates := default DEFAULT_HISTOGRAM_AGGREGATES (cfg ≫= cfg_aggregates);
     percentiles := default DEFAULT_HISTOGRAM_PERCENTILES (cfg ≫= cfg_percentiles);
     tags := tags; hostname := hostname; device_name := device_name;
     last_sample_time := None |}.

Definition update (self : t) (c : Z) (l : list pynum) (lst : option float) : t :=
  {| formatter := formatter self; name := name self; count := c;
     samples := l; aggregates := aggregates self;
     percentiles := percentiles self; tags := tags self;
     hostname := hostname self; device_name := device_name self;
     last_sample_time := lst |}.

Definition sample (self : t) (v : pynum) (sample_rate : pynum)
    (ts : option pynum) (now : float) : outcome unit * t :=
  match (q ← Py.div ver (PyInt 1) sample_rate; Py.as_int q) with
  | Returned k =>
      (Returned (), update self (count self + k) (samples self ++ [v]) (Some now))
  | Raised e => (Raised e, self)
  end.

(** [self.samples[int(round(x))]]. *)
Definition rank (sorted : list pynum) (x : pynum) : outcome pynum :=
  r ← Py.round ver x; i ← Py.as_int r; Py.index sorted i.

(** One pass of the [for p in self.percentiles] loop. *)
Definition percentile (self : t) (sorted : list pynum) (length : Z)
    (ts interval : pynum) (p : pynum) : outcome R :=
  x ← Py.mul p (PyInt length);
  y ← Py.sub x (PyInt 1);
  val ← rank sorted y;
  h ← Py.mul p (PyInt 100);
  n ← Py.as_int h;
  Returned (formatter self
    {| Kw.hostname := hostname self;
       Kw.device_name := Omitted;
       Kw.tags := tags self;
       Kw.metric := name self +:+ "." +:+ Py.str n +:+ "percentile";
       Kw.value := val;
       Kw.timestamp := ts;
       Kw.metric_type := GAUGE;
       Kw.interval := interval |}).

Fixpoint percentile_loop (self : t) (sorted : list pynum) (length : Z)
    (ts interval : pynum) (ps : list pynum) (metrics : list R)
    : outcome (list R) :=
  match ps with
  | [] => Returned metrics
  | p :: ps' =>
      m ← percentile self sorted length ts interval p;
      percentile_loop self sorted length ts interval ps' (metrics ++ [m])
  end.

(** The body of [flush] after [self.samples.sort()], up to the reset. *)
Definition summarize (self : t) (sorted : list pynum) (ts interval : pynum)
    : outcome (list R) :=
  let length := Z.of_nat (List.length sorted) in
  min_ ← Py.index sorted 0;
  max_ ← Py.index sorted (-1);
  h ← Py.div ver (PyInt length) (PyInt 2);
  h1 ← Py.sub h (PyInt 1);
  med ← rank sorted h1;
  sum_ ← Py.sum sorted;
  fl ← Py.float_of_Z length;
  avg ← Py.div ver sum_ (PyFloat fl);
  cnt ← Py.div ver (PyInt (count self)) interval;
  let aggregators :=
    [("min", min_, GAUGE);
     ("max", max_, GAUGE);
     ("median", med, GAUGE);
     ("avg", avg, GAUGE);
     ("sum", sum_, GAUGE);
     ("count", cnt, RATE)]%string in
  let metric_aggrs :=
    filter (fun a => a.1.1 ∈ aggregates self) aggregators in
  let metrics :=
    map (fun a : string * pynum * MetricTypes =>
           formatter self
             {| Kw.hostname := hostname self;
                Kw.device_name := Passed (device_name self);
                Kw.tags := tags self;
                Kw.metric := name self +:+ "." +:+ a.1.1;
                Kw.value := a.1.2;
                Kw.timestamp := ts;
                Kw.metric_type := a.2;
                Kw.interval := interval |})
        metric_aggrs in
  percentile_loop self sorted length ts interval (percentiles self) metrics.

Definition flush (self : t) (ts interval : pynum) : outcome (list R) * t :=
  if count self =? 0 then (Returned [], self)
  else
    let sorted := Py.sort (samples self) in
    match summarize self sorted ts interval with
    | Returned metrics =>
        (Returned metrics, update self 0 [] (last_sample_time self))
    | Raised e =>
        (* the in-place sort has happened, the reset has not *)
        (Raised e, update self (count self) sorted (last_sample_time self))
    end.

Definition metric : Metric t pynum R := Build_Metric t pynum R sample flush.
End Histogram.
Arguments t R : clear implicits.
End Histogram.

(** ** Set

    [K] is the type of the hashable values that are sampled. *)

Module Set_.
Section Set_.
Context {R K : Type} `{Countable K}.

Record t := mk {
  formatter : Kw.t -> R;
  name : string;
  tags : list string;
  hostname : option string;
  device_name : option string;
  values : gset K;
  last_sample_time : option float;
}.

Definition init (formatter : Kw.t -> R) (name : string) (tags : list string)
    (hostname device_name : option string) : t :=
  {| formatter := formatter; name := name; tags := tags;
     hostname := hostname; device_name := device_name;
     values := ∅; last_sample_time := None |}.

Definition update (self : t) (vs : gset K) (lst : option float) : t :=
  {| formatter := formatter self; name := name self; tags := tags self;
     hostname := hostname self; device_name := device_name self;
     values := vs; last_sample_time := lst |}.

Definition sample (self : t) (v : K) (sample_rate : pynum)
    (ts : option pynum) (now : float) : outcome unit * t :=
  (Returned (), update self ({[ v ]} ∪ values self) (Some now)).

Definition flush (self : t) (ts interval : pynum) : outcome (list R) * t :=
  if decide (values self = ∅) then (Returned [], self)
  else
    (* try: return [...]  finally: self.values = set() *)
    (Returned [formatter self
       {| Kw.hostname := hostname self;
          Kw.device_name := Passed (device_name self);
          Kw.tags := tags self;
          Kw.metric := name self;
          Kw.value := PyInt (Z.of_nat (size (values self)));
          Kw.timestamp := ts;
          Kw.metric_type := GAUGE;
          Kw.interval := interval |}],
     update self ∅ (last_sample_time self)).

Definition metric : Metric t K R := Build_Metric t K R sample flush.
End Set_.
Arguments t R K {_ _}.
End Set_.

(** ** Rate *)

Module Rate.
Section Rate.
Context {R : Type} (ver : pyver).

Record t := mk {
  formatter : Kw.t -> R;
  name : string;
  tags : list string;
  hostname : option string;
  device_name : option string;
  samples : list (Z * pynum);
  last_sample_time : option float;
}.

Definition init (formatter : Kw.t -> R) (name : string) (tags : list string)
    (hostname device_name : option string) : t :=
  {| formatter := formatter; name := name; tags := tags;
     hostname := hostname; device_name := device_name;
     samples := []; last_sample_time := None |}.

Definition update (self : t) (l : list (Z * pynum)) (lst : option float) : t :=
  {| formatter := formatter self; name := name self; tags := tags self;
     hostname := hostname self; device_name := device_name self;
     samples := l; last_sample_time := lst |}.

Definition sample (self : t) (v : pynum) (sample_rate : pynum)
    (ts : option pynum) (now : float) : outcome unit * t :=
  match Py.Z_of_float now with
  | Returned sec => (Returned (), update self (samples self ++ [(sec, v)]) (Some now))
  | Raised e => (Raised e, self)
  end.

Definition _rate (sample1 sample2 : Z * pynum) : outcome pynum :=
  let interval := sample2.1 - sample1.1 in
  if interval =? 0 then Raised Infinity
  else
    delta ← Py.sub sample2.2 sample1.2;
    if Py.lt delta (PyInt 0) then Raised UnknownValue
    else
      fi ← Py.float_of_Z interval;
      Py.div ver delta (PyFloat fi).

(** [l[-1:]]. *)
Definition last1 {A} (l : list A) : list A := drop (length l - 1) l.

Definition flush (self : t) (ts interval : pynum) : outcome (list R) * t :=
  if (length (samples self) <? 2)%nat then (Returned [], self)
  else
    (* try:
         try: val = self._rate(self.samples[-2], self.samples[-1])
         except Exception: return []
         return [...]
       finally: self.samples = self.samples[-1:] *)
    (match (s1 ← Py.index (samples self) (-2);
            s2 ← Py.index (samples self) (-1);
            _rate s1 s2) with
     | Raised _ => Returned []
     | Returned val =>
         Returned [formatter self
           {| Kw.hostname := hostname self;
              Kw.device_name := Passed (device_name self);
              Kw.tags := tags self;
              Kw.metric := name self;
              Kw.value := val;
              Kw.timestamp := ts;
              Kw.metric_type := GAUGE;
              Kw.interval := interval |}]
     end,
     update self (last1 (samples self)) (last_sample_time self)).

Definition metric : Metric t pynum R := Build_Metric t pynum R sample flush.
End Rate.
Arguments t R : clear implicits.
End Rate.

(** ** Vocabulary of the properties *)

(** The arguments of one [sample] call: value, sample rate, timestamp and
    the clock reading during the call. *)
Definition sample_args (V : Type) : Type := V * pynum * option pynum * float.

Definition sample_call {V} (a : sample_args V) : call V :=
  CallSample a.1.1.1 a.1.1.2 a.1.2 a.2.

(** [int(1 / sample_rate)], the multiplicity that [Counter.sample] and
    [Histogram.sample] compute. *)
Definition truncated_multiplicity (ver : pyver) (sample_rate : pynum) : outcome Z :=
  q ← Py.div ver (PyInt 1) sample_rate; Py.as_int q.

(** [round(1 / sample_rate)], the multiplicity as the specification words
    it: nearest integer instead of truncation. *)
Definition rounded_multiplicity (ver : pyver) (sample_rate : pynum) : outcome Z :=
  q ← Py.div ver (PyInt 1) sample_rate; r ← Py.round ver q; Py.as_int r.

(** [k] is [q] with its fractional part dropped: [q] lies between [k]
    (inclusive) and the next integer away from zero (exclusive). *)
Definition truncation_of (q : pynum) (k : Z) : Prop :=
  if Py.lt q (PyInt 0)
  then Py.lt (PyInt k) q = false /\ Py.lt (PyInt (k - 1)) q = true
  else Py.lt q (PyInt k) = false /\ Py.lt q (PyInt (k + 1)) = true.

(** A sample timestamp that [x or y] passes over: [None], or a number
    that is zero. *)
Definition absent_or_zero (t : option pynum) : Prop :=
  match t with
  | None => True
  | Some x => Py.truth x = false
  end.

(** The formatter used where a concrete one is needed: it hands back the
    keyword arguments it was called with. *)
Definition record_call : Kw.t -> Kw.t := fun kw => kw.

(** A fresh [MonotonicCount] after one [sample(10)]. *)
Definition once_sampled : MonotonicCount.t Kw.t :=
  (MonotonicCount.sample
     (MonotonicCount.init record_call "requests" [] None None)
     (PyInt 10) (PyInt 1) None 1699999995%float).2.

(** A fresh [Rate] sampled three times, the last two times within the
    same second. *)
Definition same_second : Rate.t Kw.t :=
  (run (Rate.metric Py3) (Rate.init record_call "bytes" [] None None)
     [CallSample (PyInt 3) (PyInt 1) None 1699999990.25%float;
      CallSample (PyInt 10) (PyInt 1) None 1699999995.25%float;
      CallSample (PyInt 20) (PyInt 1) None 1699999995.75%float]).2.

(** [sample(v1, rate1); sample(v2, rate2); flush(1700000000, 10)]. *)
Definition rated {V} (rate1 rate2 : pynum) (v1 v2 : V) : list (call V) :=
  [CallSample v1 rate1 None 1699999993%float;
   CallSample v2 rate2 None 1699999996%float;
   CallFlush (PyInt 1700000000) (PyInt 10)].

(** A fresh [Counter] after one [sample(1, 1)]. *)
Definition counted_once (ver : pyver) : Counter.t Kw.t :=
  (Counter.sample ver (Counter.init record_call "hits" [] None None)
     (PyInt 1) (PyInt 1) None 1699999995%float).2.

(** A default [Histogram] after [sample(5, 1)] and [sample(1, 1)]. *)
Definition fed_histogram (ver : pyver) : Histogram.t Kw.t :=
  (run (Histogram.metric ver)
     (Histogram.init record_call "latency" [] None None None)
     [CallSample (PyInt 5) (PyInt 1) None 1699999993%float;
      CallSample (PyInt 1) (PyInt 1) None 1699999996%float]).2.

(** The attributes an accumulator is constructed with and that identify
    the series it reports. *)
Definition gauge_identity {R} (g : Gauge.t R) :=
  (Gauge.formatter g, Gauge.name g, Gauge.tags g, Gauge.hostname g,
   Gauge.device_name g).
Definition count_identity {R} (c : Count.t R) :=
  (Count.formatter c, Count.name c, Count.tags c, Count.hostname c,
   Count.device_name c).
Definition monotonic_count_identity {R} (m : MonotonicCount.t R) :=
  (MonotonicCount.formatter m, MonotonicCount.name m, MonotonicCount.tags m,
   MonotonicCount.hostname m, MonotonicCount.device_name m).
Definition counter_identity {R} (c : Counter.t R) :=
  (Counter.formatter c, Counter.name c, Counter.tags c, Counter.hostname c,
   Counter.device_name c).
Definition histogram_identity {R} (h : Histogram.t R) :=
  (Histogram.formatter h, Histogram.name h, Histogram.tags h,
   Histogram.hostname h, Histogram.device_name h,
   Histogram.aggregates h, Histogram.percentiles h).
Definition set_identity {R K} `{Countable K} (s : Set_.t R K) :=
  (Set_.formatter s, Set_.name s, Set_.tags s, Set_.hostname s,
   Set_.device_name s).
Definition rate_identity {R} (r : Rate.t R) :=
  (Rate.formatter r, Rate.name r, Rate.tags r, Rate.hostname r,
   Rate.device_name r).

(** A call with the timestamp argument of [sample] taken out. *)
Definition forget_timestamp {V} (c : call V) : call V :=
  match c with
  | CallSample v r _ now => CallSample v r None now
  | CallFlush t i => CallFlush t i
  end.

(** A [sample] call whose value is an integer. *)
Definition int_call (a : sample_args Z) : call pynum :=
  CallSample (PyInt a.1.1.1) a.1.1.2 a.1.2 a.2.

(** The sum of the integers of a list. *)
Definition total (l : list Z) : Z := foldr Z.add 0 l.

(** The reading that the next [MonotonicCount.sample] measures its delta
    against: [curr_counter] if it is set, else [prev_counter]. *)
Definition baseline {R} (m : MonotonicCount.t R) : option pynum :=
  match MonotonicCount.curr_counter m with
  | Some c => Some c
  | None => MonotonicCount.prev_counter m
  end.

(** The increases along the readings [l] that follow the reading [a]:
    every step up counts, every step down counts as zero. *)
Fixpoint increase (a : Z) (l : list Z) : Z :=
  match l with
  | [] => 0
  | x :: l' => Z.max 0 (x - a) + increase x l'
  end.


(** The readings [l] that follow the reading [a] never step down. *)
Fixpoint climbs (a : Z) (l : list Z) : Prop :=
  match l with
  | [] => True
  | x :: l' => a <= x /\ climbs x l'
  end.

(** The values of a list of integer [sample] calls. *)
Definition values_of (l : list (sample_args Z)) : list Z :=
  map (fun a => a.1.1.1) l.

(** [sample(3); sample(4)], both at the sample rate 1. *)
Definition three_and_four : list (sample_args Z) :=
  [(3, PyInt 1, None, 1699999993%float);
   (4, PyInt 1, None, 1699999996%float)].

(** Three events of weight 1; the second one is seen at the sample rate
    0.5. *)
Definition three_events : list (sample_args Z) :=
  [(1, PyInt 1, None, 1699999993%float);
   (1, PyFloat 0.5, None, 1699999994%float);
   (1, PyInt 1, None, 1699999996%float)].

(** The readings 10, 15, 12 and 20 of a counter that was restarted after
    the second one. *)
Definition four_readings : list (sample_args Z) :=
  [(10, PyInt 1, None, 1699999991%float);
   (15, PyInt 1, None, 1699999993%float);
   (12, PyInt 1, None, 1699999995%float);
   (20, PyInt 1, None, 1699999997%float)].

(** The readings 105, 105 and 130. *)
Definition rising_readings : list (sample_args Z) :=
  [(105, PyInt 1, None, 1700000003%float);
   (105, PyInt 1, None, 1700000005%float);
   (130, PyInt 1, None, 1700000007%float)].

(** A [MonotonicCount] whose last window ended on the reading 100. *)
Definition warm_monotonic_count : MonotonicCount.t Kw.t :=
  (run MonotonicCount.metric
     (MonotonicCount.init record_call "requests" [] None None)
     [CallSample (PyInt 90) (PyInt 1) None 1699999993%float;
      CallSample (PyInt 100) (PyInt 1) None 1699999996%float;
      CallFlush (PyInt 1700000000) (PyInt 10)]).2.

(** A pending count has a current reading. *)
Definition pending_has_reading {R} (m : MonotonicCount.t R) : Prop :=
  MonotonicCount.count m <> None -> MonotonicCount.curr_counter m <> None.

(** [sample(v1, timestamp=t1); sample(v2, timestamp=t2);
    flush(1700000000, 10)]. *)
Definition stamped {V} (t1 t2 : option pynum) (v1 v2 : V) : list (call V) :=
  [CallSample v1 (PyInt 1) t1 1699999993%float;
   CallSample v2 (PyInt 1) t2 1699999996%float;
   CallFlush (PyInt 1700000000) (PyInt 10)].

(** The values "a", "b" and "a" again. *)
Definition a_b_a : list (sample_args string) :=
  [("a", PyInt 1, None, 1699999991%float);
   ("b", PyInt 1, None, 1699999993%float);
   ("a", PyInt 1, None, 1699999995%float)]%string.

(** A fresh [Rate] sampled three times: 500 at second 1699999980, then 10
    and 20, five seconds apart. *)
Definition five_seconds_apart : Rate.t Kw.t :=
  (run (Rate.metric Py3) (Rate.init record_call "bytes" [] None None)
     [CallSample (PyInt 500) (PyInt 1) None 1699999980.5%float;
      CallSample (PyInt 10) (PyInt 1) None 1699999990.25%float;
      CallSample (PyInt 20) (PyInt 1) None 1699999995.75%float]).2.

(** ** Properties *)

Section RunFacts.
Context {S V R : Type} (M : Metric S V R).

Lemma run_app (s : S) (cs1 cs2 : list (call V)) :
  run M s (cs1 ++ cs2) =
    ((run M s cs1).1 ++ (run M (run M s cs1).2 cs2).1,
     (run M (run M s cs1).2 cs2).2).
Proof.
  revert s; induction cs1 as [|c cs1 IH]; intros s; simpl.
  - by destruct (run M s cs2).
  - destruct (step M s c) as [o s1]. rewrite IH.
    by destruct (run M s1 cs1) as [os s2].
Qed.

(** A [sample] that does not look at its sample rate makes whole runs
    independent of the rates. *)
Lemma run_forget_rate :
  (forall s v r r' t now, sample s v r t now = sample s v r' t now) ->
  forall cs1 cs2 s,
    map forget_rate cs1 = map forget_rate cs2 -> run M s cs1 = run M s cs2.
Proof.
  intros Hs. induction cs1 as [|c1 cs1 IH]; intros [|c2 cs2] s Heq;
    try discriminate; [done|].
  simpl in Heq. injection Heq as Hc Hcs. simpl.
  assert (step M s c1 = step M s c2) as ->.
  { destruct c1, c2; simpl in Hc; try discriminate.
    - injection Hc as -> -> ->. simpl. by rewrite (Hs s _ sample_rate sample_rate0).
    - by injection Hc as -> ->. }
  destruct (step M s c2) as [o s1]. by rewrite (IH cs2 s1 Hcs).
Qed.
End RunFacts.

Section GaugeFacts.
Context {R : Type}.
Implicit Types (g : Gauge.t R) (before : list (sample_args pynum)).

Lemma gauge_sample_overwrites g v rate t now :
  Gauge.sample g v rate t now =
    (Returned (),
     Gauge.mk (Gauge.formatter g) (Gauge.name g) (Some v) (Gauge.tags g)
       (Gauge.hostname g) (Gauge.device_name g) (Some now) t).
Proof. reflexivity. Qed.

Lemma gauge_run_samples g before :
  (run Gauge.metric g (map sample_call before)).1 =
    map (fun _ => Sampled (Returned ())) before
  /\ Gauge.formatter (run Gauge.metric g (map sample_call before)).2 = Gauge.formatter g
  /\ Gauge.name (run Gauge.metric g (map sample_call before)).2 = Gauge.name g
  /\ Gauge.tags (run Gauge.metric g (map sample_call before)).2 = Gauge.tags g
  /\ Gauge.hostname (run Gauge.metric g (map sample_call before)).2 = Gauge.hostname g
  /\ Gauge.device_name (run Gauge.metric g (map sample_call before)).2 = Gauge.device_name g.
Proof.
  revert g; induction before as [|a before IH]; intros g; [done|].
  simpl. destruct (IH (Gauge.sample g a.1.1.1 a.1.1.2 a.1.2 a.2).2) as (E1 & E2 & E3 & E4 & E5 & E6).
  simpl in *.
  destruct (run Gauge.metric _ (map sample_call before)) as [os s'].
  simpl in *. by rewrite E1, E2, E3, E4, E5, E6.
Qed.

Lemma gauge_run_then_sample g before v rate t now :
  run Gauge.metric g (map sample_call before ++ [CallSample v rate t now]) =
    (map (fun _ => Sampled (Returned ())) before ++ [Sampled (Returned ())],
     Gauge.mk (Gauge.formatter g) (Gauge.name g) (Some v) (Gauge.tags g)
       (Gauge.hostname g) (Gauge.device_name g) (Some now) t).
Proof.
  rewrite run_app.
  destruct (gauge_run_samples g before) as (-> & E2 & E3 & E4 & E5 & E6).
  destruct (run Gauge.metric g (map sample_call before)) as [os g1].
  simpl in *. by rewrite E2, E3, E4, E5, E6.
Qed.

Lemma gauge_run_then_sample_flush g before v rate t now ts interval :
  run Gauge.metric g
    (map sample_call before ++ [CallSample v rate t now; CallFlush ts interval])
  = (map (fun _ => Sampled (Returned ())) before ++
       [Sampled (Returned ());
        Flushed (Gauge.flush
          (Gauge.mk (Gauge.formatter g) (Gauge.name g) (Some v) (Gauge.tags g)
             (Gauge.hostname g) (Gauge.device_name g) (Some now) t)
          ts interval).1],
     (Gauge.flush
        (Gauge.mk (Gauge.formatter g) (Gauge.name g) (Some v) (Gauge.tags g)
           (Gauge.hostname g) (Gauge.device_name g) (Some now) t)
        ts interval).2).
Proof.
  change [CallSample v rate t now; CallFlush ts interval]
    with ([CallSample v rate t now] ++ [CallFlush ts interval : call pynum]).
  rewrite app_assoc, run_app, gauge_run_then_sample. simpl.
  by rewrite <- app_assoc.
Qed.

(** C8.  Whatever [sample] calls came before, the last [sample] call
    decides what the next [flush] reports: the run answers every [sample]
    with a plain return and the [flush] with exactly one GAUGE record
    whose value is the value of the last [sample] call, and it leaves the
    stored value unset. *)
Theorem gauge_last_write_wins g before v rate t now ts interval :
  run Gauge.metric g
    (map sample_call before ++ [CallSample v rate t now; CallFlush ts interval])
  = (map (fun _ => Sampled (Returned ())) before ++
       [Sampled (Returned ());
        Flushed (Returned [Gauge.formatter g
          {| Kw.metric := Gauge.name g;
             Kw.timestamp := Py.or t ts;
             Kw.value := v;
             Kw.tags := Gauge.tags g;
             Kw.hostname := Gauge.hostname g;
             Kw.device_name := Passed (Gauge.device_name g);
             Kw.metric_type := GAUGE;
             Kw.interval := interval |}])],
     Gauge.mk (Gauge.formatter g) (Gauge.name g) None (Gauge.tags g)
       (Gauge.hostname g) (Gauge.device_name g) (Some now) t).
Proof. by rewrite gauge_run_then_sample_flush. Qed.

(** C10.  When the last [sample] call before a [flush] carried no
    timestamp, or a timestamp that is zero (so false as a truth value),
    the record the [flush] emits is stamped with the timestamp of the
    [flush]. *)
Theorem gauge_falsy_timestamp_is_flush_time g before v rate t now ts interval :
  absent_or_zero t ->
  (run Gauge.metric g
     (map sample_call before ++ [CallSample v rate t now; CallFlush ts interval])).1
  = map (fun _ => Sampled (Returned ())) before ++
      [Sampled (Returned ());
       Flushed (Returned [Gauge.formatter g
         {| Kw.metric := Gauge.name g;
            Kw.timestamp := ts;
            Kw.value := v;
            Kw.tags := Gauge.tags g;
            Kw.hostname := Gauge.hostname g;
            Kw.device_name := Passed (Gauge.device_name g);
            Kw.metric_type := GAUGE;
            Kw.interval := interval |}])].
Proof.
  intros Ht. rewrite gauge_run_then_sample_flush. simpl.
  assert (Py.or t ts = ts) as ->; [|done].
  destruct t as [x|]; simpl in *; [by rewrite Ht|done].
Qed.
End GaugeFacts.

(** The timestamp [0] of C10 at work: a gauge sampled once with
    [timestamp=0] reports at the flush timestamp [1700000000]. *)
Lemma gauge_falsy_timestamp_witness :
  absent_or_zero (Some (PyInt 0)) /\
  (run Gauge.metric
     (Gauge.init record_call "load" [] None None 1699999990%float)
     (map sample_call ([] : list (sample_args pynum)) ++
        [CallSample (PyInt 7) (PyInt 1) (Some (PyInt 0)) 1699999995%float;
         CallFlush (PyInt 1700000000) (PyInt 10)])).1
  = map (fun _ => Sampled (Returned ())) ([] : list (sample_args pynum)) ++
    [Sampled (Returned ());
     Flushed (Returned [record_call
       {| Kw.metric := "load";
          Kw.timestamp := PyInt 1700000000;
          Kw.value := PyInt 7;
          Kw.tags := [];
          Kw.hostname := None;
          Kw.device_name := Passed None;
          Kw.metric_type := GAUGE;
          Kw.interval := PyInt 10 |}])].
Proof.
  split; [reflexivity|].
  apply (gauge_falsy_timestamp_is_flush_time
           (Gauge.init record_call "load" [] None None 1699999990%float) []).
  reflexivity.
Defined.

Section MonotonicCountFacts.
Context {R : Type}.
Implicit Types (m : MonotonicCount.t R).

(** C7.  A fresh [MonotonicCount] that is sampled with [10] and flushed
    emits nothing; sampled with [15] and flushed again it emits exactly
    one COUNT record with value [5]: the reading [10] outlives the first
    flush. *)
Theorem monotonic_count_cross_window_delta (formatter : Kw.t -> R) name tags
    hostname device_name rate1 t1 now1 ts1 interval1 rate2 t2 now2 ts2 interval2 :
  (run MonotonicCount.metric
     (MonotonicCount.init formatter name tags hostname device_name)
     [CallSample (PyInt 10) rate1 t1 now1; CallFlush ts1 interval1;
      CallSample (PyInt 15) rate2 t2 now2; CallFlush ts2 interval2]).1
  = [Sampled (Returned ());
     Flushed (Returned []);
     Sampled (Returned ());
     Flushed (Returned [formatter
       {| Kw.hostname := hostname;
          Kw.device_name := Passed device_name;
          Kw.tags := tags;
          Kw.metric := name;
          Kw.value := PyInt 5;
          Kw.timestamp := ts2;
          Kw.metric_type := COUNT;
          Kw.interval := interval2 |}])].
Proof. reflexivity. Qed.

(** C2, as the code has it.  [flush] carries the counters forward exactly
    when [count] is set: it then emits one COUNT record with [count] and
    leaves [prev_counter] equal to the former [curr_counter], with
    [curr_counter] and [count] unset.  When [count] is unset, [flush]
    returns the empty list before the [try] block and changes nothing. *)
Theorem monotonic_count_flush_carry m ts interval :
  match MonotonicCount.count m with
  | Some c =>
      (MonotonicCount.flush m ts interval).1 =
        Returned [MonotonicCount.formatter m
          {| Kw.hostname := MonotonicCount.hostname m;
             Kw.device_name := Passed (MonotonicCount.device_name m);
             Kw.tags := MonotonicCount.tags m;
             Kw.metric := MonotonicCount.name m;
             Kw.value := c;
             Kw.timestamp := ts;
             Kw.metric_type := COUNT;
             Kw.interval := interval |}]
      /\ MonotonicCount.prev_counter (MonotonicCount.flush m ts interval).2
         = MonotonicCount.curr_counter m
      /\ MonotonicCount.curr_counter (MonotonicCount.flush m ts interval).2 = None
      /\ MonotonicCount.count (MonotonicCount.flush m ts interval).2 = None
  | None => MonotonicCount.flush m ts interval = (Returned [], m)
  end.
Proof.
  unfold MonotonicCount.flush. by destruct (MonotonicCount.count m).
Qed.
End MonotonicCountFacts.

(** C2 as stated fails: after [sample(10)] on a fresh accumulator [count]
    is unset, and the [flush] that follows emits nothing and keeps
    [curr_counter = 10] and [prev_counter] unset, where the carry would
    have left [prev_counter = 10] and [curr_counter] unset. *)
Lemma monotonic_count_no_carry_when_count_unset :
  MonotonicCount.count once_sampled = None
  /\ MonotonicCount.curr_counter once_sampled = Some (PyInt 10)
  /\ (MonotonicCount.flush once_sampled (PyInt 1700000000) (PyInt 10)).1 = Returned []
  /\ MonotonicCount.curr_counter
       (MonotonicCount.flush once_sampled (PyInt 1700000000) (PyInt 10)).2
     = Some (PyInt 10)
  /\ MonotonicCount.prev_counter
       (MonotonicCount.flush once_sampled (PyInt 1700000000) (PyInt 10)).2
     = None.
Proof. repeat split. Qed.

Section HistogramFacts.
Context {R : Type}.
Implicit Types (h : Histogram.t R).

(** C5.  A [Histogram] with the default configuration that received the
    samples 5, 1, 9, 3, each with sample rate 1, answers
    [flush(ts, interval=1)] with exactly five records, in this order:
    [.max = 9], [.median = 3], [.avg = 4.5] (all GAUGE), [.count = 4]
    (RATE) and [.95percentile = 9] (GAUGE); there is no [.min] and no
    [.sum] record, and afterwards [samples] is empty and [count] is 0.
    The count is the integer 4 where [/] on two integers is floor
    division and the float 4.0 where it is true division. *)
Theorem histogram_default_aggregates (ver : pyver) (formatter : Kw.t -> R)
    name tags hostname device_name t1 now1 t2 now2 t3 now3 t4 now4 ts :
  run (Histogram.metric ver)
    (Histogram.init formatter name tags hostname device_name None)
    [CallSample (PyInt 5) (PyInt 1) t1 now1;
     CallSample (PyInt 1) (PyInt 1) t2 now2;
     CallSample (PyInt 9) (PyInt 1) t3 now3;
     CallSample (PyInt 3) (PyInt 1) t4 now4;
     CallFlush ts (PyInt 1)]
  = ([Sampled (Returned ()); Sampled (Returned ());
      Sampled (Returned ()); Sampled (Returned ());
      Flushed (Returned
        [formatter
           {| Kw.hostname := hostname;
              Kw.device_name := Passed device_name;
              Kw.tags := tags;
              Kw.metric := name +:+ ".max";
              Kw.value := PyInt 9;
              Kw.timestamp := ts;
              Kw.metric_type := GAUGE;
              Kw.interval := PyInt 1 |};
         formatter
           {| Kw.hostname := hostname;
              Kw.device_name := Passed device_name;
              Kw.tags := tags;
              Kw.metric := name +:+ ".median";
              Kw.value := PyInt 3;
              Kw.timestamp := ts;
              Kw.metric_type := GAUGE;
              Kw.interval := PyInt 1 |};
         formatter
           {| Kw.hostname := hostname;
              Kw.device_name := Passed device_name;
              Kw.tags := tags;
              Kw.metric := name +:+ ".avg";
              Kw.value := PyFloat 4.5;
              Kw.timestamp := ts;
              Kw.metric_type := GAUGE;
              Kw.interval := PyInt 1 |};
         formatter
           {| Kw.hostname := hostname;
              Kw.device_name := Passed device_name;
              Kw.tags := tags;
              Kw.metric := name +:+ ".count";
              Kw.value := match ver with Py2 => PyInt 4 | Py3 => PyFloat 4 end;
              Kw.timestamp := ts;
              Kw.metric_type := RATE;
              Kw.interval := PyInt 1 |};
         formatter
           {| Kw.hostname := hostname;
              Kw.device_name := Omitted;
              Kw.tags := tags;
              Kw.metric := name +:+ ".95percentile";
              Kw.value := PyInt 9;
              Kw.timestamp := ts;
              Kw.metric_type := GAUGE;
              Kw.interval := PyInt 1 |}])],
     Histogram.mk formatter name 0 []
       DEFAULT_HISTOGRAM_AGGREGATES DEFAULT_HISTOGRAM_PERCENTILES
       tags hostname device_name (Some now4)).
Proof. destruct ver; vm_compute; reflexivity. Qed.
End HistogramFacts.

(** C3 at work on the code.  A default [Histogram] on device ["sda"] that
    is sampled once and flushed emits five records; the four aggregate
    records are built with [device_name="sda"], the percentile record is
    built by a call that passes no [device_name] at all. *)
Lemma histogram_percentile_call_omits_device_name :
  forall ver : pyver,
  map Kw.device_name
    match (Histogram.flush ver
             (Histogram.sample ver
                (Histogram.init record_call "io.await" [] None (Some "sda"%string) None)
                (PyInt 1) (PyInt 1) None 1699999995%float).2
             (PyInt 1700000000) (PyInt 1)).1
    with Returned l => l | Raised _ => [] end
  = [Passed (Some "sda"%string); Passed (Some "sda"%string);
     Passed (Some "sda"%string); Passed (Some "sda"%string); Omitted].
Proof. intros []; vm_compute; reflexivity. Qed.

Section IndexFacts.
Context {A : Type}.
Implicit Types (l : list A).

Lemma index_second_last l a b : Py.index (l ++ [a; b]) (-2) = Returned a.
Proof.
  unfold Py.index. rewrite length_app. simpl.
  replace (Z.of_nat (length l + 2) + -2) with (Z.of_nat (length l)) by lia.
  rewrite Nat2Z.id.
  assert ((0 <=? Z.of_nat (length l)) && (Z.of_nat (length l) <? Z.of_nat (length l + 2)) = true) as ->.
  { apply andb_true_iff; split; [apply Z.leb_le|apply Z.ltb_lt]; lia. }
  by rewrite lookup_app_r, Nat.sub_diag by lia.
Qed.

Lemma index_last l a b : Py.index (l ++ [a; b]) (-1) = Returned b.
Proof.
  unfold Py.index. rewrite length_app. simpl.
  replace (Z.of_nat (length l + 2) + -1) with (Z.of_nat (length l + 1)) by lia.
  rewrite Nat2Z.id.
  assert ((0 <=? Z.of_nat (length l + 1)) && (Z.of_nat (length l + 1) <? Z.of_nat (length l + 2)) = true) as ->.
  { apply andb_true_iff; split; [apply Z.leb_le|apply Z.ltb_lt]; lia. }
  rewrite lookup_app_r by lia.
  by replace (length l + 1 - length l)%nat with 1%nat by lia.
Qed.

Lemma last1_two l a b : Rate.last1 (l ++ [a; b]) = [b].
Proof.
  unfold Rate.last1. rewrite length_app. simpl.
  replace (length l + 2 - 1)%nat with (length l + 1)%nat by lia.
  by rewrite drop_app_add.
Qed.
End IndexFacts.

Section RateFacts.
Context {R : Type} (ver : pyver).
Implicit Types (r : Rate.t R).

Lemma rate_suppressed (s1 s2 : Z * pynum) :
  s2.1 - s1.1 = 0
  \/ (exists d, Py.sub s2.2 s1.2 = Returned d /\ Py.lt d (PyInt 0) = true) ->
  exists e, Rate._rate ver s1 s2 = Raised e.
Proof.
  unfold Rate._rate. intros [Hz|(d & Hd & Hneg)].
  - rewrite Hz. simpl. by eexists.
  - destruct (s2.1 - s1.1 =? 0); [by eexists|].
    rewrite Hd. simpl. rewrite Hneg. by eexists.
Qed.

(** C6.  When a [Rate] holds at least two samples and the two most recent
    ones are zero seconds apart, or their values decrease, [flush] returns
    the empty list (nothing is raised) and keeps exactly the most recent
    sample. *)
Theorem rate_suppression_keeps_last_sample r earlier t1 v1 t2 v2 ts interval :
  Rate.samples r = earlier ++ [(t1, v1); (t2, v2)] ->
  t2 - t1 = 0
  \/ (exists d, Py.sub v2 v1 = Returned d /\ Py.lt d (PyInt 0) = true) ->
  Rate.flush ver r ts interval =
    (Returned [], Rate.update r [(t2, v2)] (Rate.last_sample_time r)).
Proof.
  intros Hs Hsup. unfold Rate.flush. rewrite Hs.
  assert ((length (earlier ++ [(t1, v1); (t2, v2)]) <? 2)%nat = false) as ->.
  { apply Nat.ltb_ge. rewrite length_app. simpl. lia. }
  rewrite index_second_last, index_last, last1_two. simpl.
  destruct (rate_suppressed (t1, v1) (t2, v2) Hsup) as [e ->].
  reflexivity.
Qed.
End RateFacts.

(** C6 on two samples taken within the same second, and ahead of them an
    older one. *)
Lemma rate_suppression_witness :
  (Rate.samples same_second = [(1699999990, PyInt 3)] ++
     [(1699999995, PyInt 10); (1699999995, PyInt 20)])
  /\ (1699999995 - 1699999995 = 0
      \/ (exists d, Py.sub (PyInt 20) (PyInt 10) = Returned d
                    /\ Py.lt d (PyInt 0) = true))
  /\ Rate.flush Py3 same_second (PyInt 1700000000) (PyInt 10) =
       (Returned [],
        Rate.update same_second [(1699999995, PyInt 20)]
          (Rate.last_sample_time same_second)).
Proof.
  split; [reflexivity|]. split; [left; reflexivity|].
  apply (rate_suppression_keeps_last_sample Py3 same_second
           [(1699999990, PyInt 3)] 1699999995 (PyInt 10) 1699999995 (PyInt 20)).
  - reflexivity.
  - left; reflexivity.
Defined.

Section SampleRateFacts.
Context {R K : Type} `{Countable K} (ver : pyver).

(** C9.  [Gauge], [BucketGauge], [Count], [MonotonicCount], [Set] and
    [Rate] never look at the sample rate: two call sequences that agree in
    everything but the sample rates passed to [sample] are answered alike,
    call by call, and leave the accumulator in the same state. *)
Theorem sample_rate_ignored (g : Gauge.t R) (b : BucketGauge.t R)
    (c : Count.t R) (m : MonotonicCount.t R) (s : Set_.t R K) (r : Rate.t R)
    (cs1 cs2 : list (call pynum)) (ks1 ks2 : list (call K)) :
  map forget_rate cs1 = map forget_rate cs2 ->
  map forget_rate ks1 = map forget_rate ks2 ->
  run Gauge.metric g cs1 = run Gauge.metric g cs2
  /\ run BucketGauge.metric b cs1 = run BucketGauge.metric b cs2
  /\ run Count.metric c cs1 = run Count.metric c cs2
  /\ run MonotonicCount.metric m cs1 = run MonotonicCount.metric m cs2
  /\ run Set_.metric s ks1 = run Set_.metric s ks2
  /\ run (Rate.metric ver) r cs1 = run (Rate.metric ver) r cs2.
Proof.
  intros Hcs Hks.
  repeat split; apply run_forget_rate; trivial; reflexivity.
Qed.
End SampleRateFacts.

(** C9 on two runs of [sample; sample; flush], one passing the sample
    rates 1 and 1, the other 0.5 and 0.25. *)
Lemma sample_rate_ignored_witness :
  run Gauge.metric (Gauge.init record_call "m" [] None None 1699999990%float)
    (rated (PyInt 1) (PyInt 1) (PyInt 3) (PyInt 4))
  = run Gauge.metric (Gauge.init record_call "m" [] None None 1699999990%float)
      (rated (PyFloat 0.5) (PyFloat 0.25) (PyInt 3) (PyInt 4))
  /\ run BucketGauge.metric
       (BucketGauge.init record_call "m" [] None None 1699999990%float)
       (rated (PyInt 1) (PyInt 1) (PyInt 3) (PyInt 4))
     = run BucketGauge.metric
         (BucketGauge.init record_call "m" [] None None 1699999990%float)
         (rated (PyFloat 0.5) (PyFloat 0.25) (PyInt 3) (PyInt 4))
  /\ run Count.metric (Count.init record_call "m" [] None None)
       (rated (PyInt 1) (PyInt 1) (PyInt 3) (PyInt 4))
     = run Count.metric (Count.init record_call "m" [] None None)
         (rated (PyFloat 0.5) (PyFloat 0.25) (PyInt 3) (PyInt 4))
  /\ run MonotonicCount.metric (MonotonicCount.init record_call "m" [] None None)
       (rated (PyInt 1) (PyInt 1) (PyInt 3) (PyInt 4))
     = run MonotonicCount.metric (MonotonicCount.init record_call "m" [] None None)
         (rated (PyFloat 0.5) (PyFloat 0.25) (PyInt 3) (PyInt 4))
  /\ run Set_.metric (Set_.init record_call "m" [] None None)
       (rated (PyInt 1) (PyInt 1) "a"%string "b"%string)
     = run Set_.metric (Set_.init record_call "m" [] None None)
         (rated (PyFloat 0.5) (PyFloat 0.25) "a"%string "b"%string)
  /\ run (Rate.metric Py3) (Rate.init record_call "m" [] None None)
       (rated (PyInt 1) (PyInt 1) (PyInt 3) (PyInt 4))
     = run (Rate.metric Py3) (Rate.init record_call "m" [] None None)
         (rated (PyFloat 0.5) (PyFloat 0.25) (PyInt 3) (PyInt 4)).
Proof.
  apply (sample_rate_ignored Py3); reflexivity.
Defined.

Section SecondFlushFacts.
Context {R K : Type} `{Countable K} (ver : pyver).

Lemma last1_short {A} (l : list A) : (length (Rate.last1 l) <? 2)%nat = true.
Proof.
  apply Nat.ltb_lt. unfold Rate.last1. rewrite length_drop. lia.
Qed.

Lemma gauge_second_flush (g : Gauge.t R) ts interval ts' interval' :
  (Gauge.flush (Gauge.flush g ts interval).2 ts' interval').1 = Returned [].
Proof.
  unfold Gauge.flush at 2. destruct (Gauge.value g) eqn:E; simpl.
  - reflexivity.
  - unfold Gauge.flush. by rewrite E.
Qed.

Lemma bucket_gauge_second_flush (b : BucketGauge.t R) ts interval ts' interval' :
  (BucketGauge.flush (BucketGauge.flush b ts interval).2 ts' interval').1 = Returned [].
Proof.
  unfold BucketGauge.flush at 2. destruct (Gauge.value b) eqn:E; simpl.
  - reflexivity.
  - unfold BucketGauge.flush. by rewrite E.
Qed.

Lemma count_second_flush (c : Count.t R) ts interval ts' interval' :
  (Count.flush (Count.flush c ts interval).2 ts' interval').1 = Returned [].
Proof.
  unfold Count.flush at 2. destruct (Count.value c) eqn:E; simpl.
  - reflexivity.
  - unfold Count.flush. by rewrite E.
Qed.

Lemma monotonic_count_second_flush (m : MonotonicCount.t R) ts interval ts' interval' :
  (MonotonicCount.flush (MonotonicCount.flush m ts interval).2 ts' interval').1
  = Returned [].
Proof.
  unfold MonotonicCount.flush at 2. destruct (MonotonicCount.count m) eqn:E; simpl.
  - reflexivity.
  - unfold MonotonicCount.flush. by rewrite E.
Qed.

Lemma histogram_second_flush (h : Histogram.t R) ts interval ts' interval' :
  returns (Histogram.flush ver h ts interval).1 = true ->
  (Histogram.flush ver (Histogram.flush ver h ts interval).2 ts' interval').1
  = Returned [].
Proof.
  unfold Histogram.flush at 1 3. destruct (Histogram.count h =? 0) eqn:E; simpl.
  - intros _. unfold Histogram.flush. by rewrite E.
  - destruct (Histogram.summarize ver h _ ts interval); simpl; [done|discriminate].
Qed.

Lemma set_second_flush (s : Set_.t R K) ts interval ts' interval' :
  (Set_.flush (Set_.flush s ts interval).2 ts' interval').1 = Returned [].
Proof.
  unfold Set_.flush at 2. destruct (decide (Set_.values s = ∅)) as [E|E]; simpl.
  - unfold Set_.flush. by rewrite decide_True.
  - unfold Set_.flush. simpl. by rewrite decide_True.
Qed.

Lemma rate_second_flush (r : Rate.t R) ts interval ts' interval' :
  (Rate.flush ver (Rate.flush ver r ts interval).2 ts' interval').1 = Returned [].
Proof.
  unfold Rate.flush at 2. destruct (length (Rate.samples r) <? 2)%nat eqn:E; simpl.
  - unfold Rate.flush. by rewrite E.
  - unfold Rate.flush. simpl. by rewrite last1_short.
Qed.

Lemma counter_second_flush (n : Counter.t R) ts interval ts' interval' :
  (Counter.flush ver (Counter.flush ver n ts interval).2 ts' interval').1
  = (v ← Py.div ver (PyInt 0) interval';
     Returned [Counter.formatter n
       {| Kw.metric := Counter.name n;
          Kw.value := v;
          Kw.timestamp := ts';
          Kw.tags := Counter.tags n;
          Kw.hostname := Counter.hostname n;
          Kw.device_name := Passed (Counter.device_name n);
          Kw.metric_type := RATE;
          Kw.interval := interval' |}]).
Proof. reflexivity. Qed.

(** C1, as the code has it.  For [Gauge], [BucketGauge], [Count],
    [MonotonicCount], [Histogram], [Set] and [Rate], a flush that follows
    a flush which returned, with no [sample] in between, returns the empty
    list.  [Counter] is the exception by construction: its [flush] has no
    empty branch, so the second flush answers with one RATE record whose
    value is [0 / interval] (or with what that division raises). *)
Theorem second_flush_is_empty (g : Gauge.t R) (b : BucketGauge.t R)
    (c : Count.t R) (m : MonotonicCount.t R) (h : Histogram.t R)
    (s : Set_.t R K) (r : Rate.t R) (n : Counter.t R)
    ts interval ts' interval' :
  returns (Histogram.flush ver h ts interval).1 = true ->
  (Gauge.flush (Gauge.flush g ts interval).2 ts' interval').1 = Returned []
  /\ (BucketGauge.flush (BucketGauge.flush b ts interval).2 ts' interval').1
     = Returned []
  /\ (Count.flush (Count.flush c ts interval).2 ts' interval').1 = Returned []
  /\ (MonotonicCount.flush (MonotonicCount.flush m ts interval).2 ts' interval').1
     = Returned []
  /\ (Histogram.flush ver (Histogram.flush ver h ts interval).2 ts' interval').1
     = Returned []
  /\ (Set_.flush (Set_.flush s ts interval).2 ts' interval').1 = Returned []
  /\ (Rate.flush ver (Rate.flush ver r ts interval).2 ts' interval').1
     = Returned []
  /\ (Counter.flush ver (Counter.flush ver n ts interval).2 ts' interval').1
     = (v ← Py.div ver (PyInt 0) interval';
        Returned [Counter.formatter n
          {| Kw.metric := Counter.name n;
             Kw.value := v;
             Kw.timestamp := ts';
             Kw.tags := Counter.tags n;
             Kw.hostname := Counter.hostname n;
             Kw.device_name := Passed (Counter.device_name n);
             Kw.metric_type := RATE;
             Kw.interval := interval' |}]).
Proof.
  intros Hh.
  split; [apply gauge_second_flush|].
  split; [apply bucket_gauge_second_flush|].
  split; [apply count_second_flush|].
  split; [apply monotonic_count_second_flush|].
  split; [by apply histogram_second_flush|].
  split; [apply set_second_flush|].
  split; [apply rate_second_flush|].
  apply counter_second_flush.
Qed.
End SecondFlushFacts.

(** C1 as stated fails on [Counter]: a counter that counted one event is
    flushed twice over 10-second windows; the second flush, with no sample
    since the first, still emits a RATE record, of value zero. *)
Lemma counter_second_flush_not_empty :
  (Counter.flush Py2 (Counter.flush Py2 (counted_once Py2)
                        (PyInt 1700000000) (PyInt 10)).2
     (PyInt 1700000010) (PyInt 10)).1
  = Returned [{| Kw.metric := "hits";
                 Kw.value := PyInt 0;
                 Kw.timestamp := PyInt 1700000010;
                 Kw.tags := [];
                 Kw.hostname := None;
                 Kw.device_name := Passed None;
                 Kw.metric_type := RATE;
                 Kw.interval := PyInt 10 |}]
  /\ (Counter.flush Py3 (Counter.flush Py3 (counted_once Py3)
                           (PyInt 1700000000) (PyInt 10)).2
        (PyInt 1700000010) (PyInt 10)).1
     = Returned [{| Kw.metric := "hits";
                    Kw.value := PyFloat 0;
                    Kw.timestamp := PyInt 1700000010;
                    Kw.tags := [];
                    Kw.hostname := None;
                    Kw.device_name := Passed None;
                    Kw.metric_type := RATE;
                    Kw.interval := PyInt 10 |}].
Proof. split; vm_compute; reflexivity. Qed.

(** C1 on accumulators that each hold data when first flushed. *)
Lemma second_flush_is_empty_witness :
  returns (Histogram.flush Py3 (fed_histogram Py3) (PyInt 1700000000) (PyInt 10)).1
  = true
  /\ (Histogram.flush Py3
        (Histogram.flush Py3 (fed_histogram Py3) (PyInt 1700000000) (PyInt 10)).2
        (PyInt 1700000010) (PyInt 10)).1
     = Returned [].
Proof.
  split; [vm_compute; reflexivity|].
  apply (second_flush_is_empty (K := string) Py3
           (Gauge.init record_call "g" [] None None 1699999990%float)
           (BucketGauge.init record_call "b" [] None None 1699999990%float)
           (Count.init record_call "c" [] None None)
           once_sampled
           (fed_histogram Py3)
           (Set_.init record_call "s" [] None None)
           same_second
           (counted_once Py3)
           (PyInt 1700000000) (PyInt 10) (PyInt 1700000010) (PyInt 10)).
  vm_compute; reflexivity.
Defined.

Section MultiplicityFacts.
Context {R : Type} (ver : pyver).

Ltac compare_cases :=
  repeat match goal with
         | |- context [?a ?= ?b] => destruct (Z.compare_spec a b)
         end;
  simpl; try split; first [done | exfalso; nia].

Lemma compare_Z_finite z f s m e :
  Prim2SF f = S754_finite s m e ->
  Py.compare_Z_float z f =
    if 0 <=? e then Some (z ?= cond_Zopp s (Z.pos m * 2 ^ e))
    else Some (z * 2 ^ (- e) ?= cond_Zopp s (Z.pos m)).
Proof.
  intros E. unfold Py.compare_Z_float. rewrite E.
  destruct (0 <=? e) eqn:He.
  - apply Z.leb_le in He. by rewrite Z.shiftl_mul_pow2.
  - apply Z.leb_gt in He. by rewrite Z.shiftl_mul_pow2 by lia.
Qed.

(** [int(q)] drops the fractional part of [q], whatever its sign. *)
Lemma as_int_truncates q k : Py.as_int q = Returned k -> truncation_of q k.
Proof.
  unfold truncation_of. destruct q as [z|f]; simpl.
  - intros [= <-]. destruct (z <? 0); split;
      first [apply Z.ltb_ge; lia | apply Z.ltb_lt; lia].
  - unfold Py.Z_of_float. destruct (Prim2SF f) as [sz|si| |s m e] eqn:E;
      try discriminate.
    + intros [= <-]. unfold Py.compare_Z_float. rewrite E. by simpl.
    + intros [= <-]. rewrite !(compare_Z_finite _ f s m e E).
      assert (0 < Z.pos m) as Hm by lia.
      clear E. revert Hm. generalize (Z.pos m). intros M HM.
      destruct (0 <=? e) eqn:He.
      * apply Z.leb_le in He. rewrite Z.shiftl_mul_pow2 by done.
        assert (0 < 2 ^ e) as Hp by (by apply Z.pow_pos_nonneg).
        revert Hp. generalize (2 ^ e). intros p Hp.
        destruct s; unfold cond_Zopp; compare_cases.
      * apply Z.leb_gt in He.
        assert (Z.shiftl M e = M / 2 ^ (- e)) as ->.
        { rewrite <- Z.shiftl_div_pow2 by lia. f_equal; lia. }
        assert (0 < 2 ^ (- e)) as Hp by (apply Z.pow_pos_nonneg; lia).
        pose proof (Z.div_mod M (2 ^ (- e)) ltac:(lia)) as Hdm.
        pose proof (Z.mod_pos_bound M (2 ^ (- e)) Hp) as Hb.
        revert Hp Hdm Hb. generalize (2 ^ (- e)). intros p Hp.
        generalize (M mod p), (M / p). intros r d Hdm Hb.
        destruct s; unfold cond_Zopp; compare_cases.
Qed.

(** C4, as the code has it.  Whenever [int(1 / sample_rate)] is defined
    and equals [k] (as it is for the sample rates in (0, 1] whose
    reciprocal is finite), [k] is [1 / sample_rate] with its fractional
    part dropped, not the nearest integer; [Counter.sample] adds [v * k]
    to [value], and [Histogram.sample] adds [k] to [count] and appends
    the one raw value [v] to [samples]. *)
Theorem sample_multiplicity_is_truncated (c : Counter.t R) (h : Histogram.t R)
    v sample_rate ts now q k d n :
  Py.div ver (PyInt 1) sample_rate = Returned q ->
  Py.as_int q = Returned k ->
  Py.mul v (PyInt k) = Returned d ->
  Py.add (Counter.value c) d = Returned n ->
  truncated_multiplicity ver sample_rate = Returned k
  /\ truncation_of q k
  /\ Counter.sample ver c v sample_rate ts now
     = (Returned (), Counter.update c n (Some now))
  /\ Histogram.sample ver h v sample_rate ts now
     = (Returned (),
        Histogram.update h (Histogram.count h + k) (Histogram.samples h ++ [v])
          (Some now)).
Proof.
  intros Hq Hk Hd Hn.
  unfold truncated_multiplicity, Counter.sample, Histogram.sample.
  rewrite Hq. simpl. rewrite Hk. simpl. rewrite Hd. simpl. rewrite Hn.
  repeat split. by apply as_int_truncates.
Qed.
End MultiplicityFacts.

(** C4 as stated fails at the sample rate 0.6, which lies in (0, 1]:
    [1 / 0.6] is 1.67, [round] gives 2 and [int] gives 1.  A fresh
    [Counter] sampled with [v = 1] ends with the value 1, not 2, and a
    fresh [Histogram] with the count 1, not 2. *)
Lemma sample_multiplicity_not_rounded :
  Py.lt (PyInt 0) (PyFloat 0.6) = true
  /\ Py.lt (PyInt 1) (PyFloat 0.6) = false
  /\ rounded_multiplicity Py2 (PyFloat 0.6) = Returned 2
  /\ rounded_multiplicity Py3 (PyFloat 0.6) = Returned 2
  /\ Counter.value
       (Counter.sample Py2 (Counter.init record_call "hits" [] None None)
          (PyInt 1) (PyFloat 0.6) None 1699999995%float).2 = PyInt 1
  /\ Counter.value
       (Counter.sample Py3 (Counter.init record_call "hits" [] None None)
          (PyInt 1) (PyFloat 0.6) None 1699999995%float).2 = PyInt 1
  /\ Histogram.count
       (Histogram.sample Py2
          (Histogram.init record_call "latency" [] None None None)
          (PyInt 1) (PyFloat 0.6) None 1699999995%float).2 = 1
  /\ Histogram.count
       (Histogram.sample Py3
          (Histogram.init record_call "latency" [] None None None)
          (PyInt 1) (PyFloat 0.6) None 1699999995%float).2 = 1.
Proof. repeat split; vm_compute; reflexivity. Qed.

(** C4 at the sample rate 0.6: the multiplicity is 1. *)
Lemma sample_multiplicity_witness :
  truncated_multiplicity Py3 (PyFloat 0.6) = Returned 1
  /\ truncation_of (PyFloat (1 / 0.6)) 1
  /\ Counter.sample Py3 (Counter.init record_call "hits" [] None None)
       (PyInt 1) (PyFloat 0.6) None 1699999995%float
     = (Returned (),
        Counter.update (Counter.init record_call "hits" [] None None)
          (PyInt 1) (Some 1699999995%float))
  /\ Histogram.sample Py3
       (Histogram.init record_call "latency" [] None None None)
       (PyInt 1) (PyFloat 0.6) None 1699999995%float
     = (Returned (),
        Histogram.update
          (Histogram.init record_call "latency" [] None None None)
          (Histogram.count
             (Histogram.init record_call "latency" [] None None None) + 1)
          (Histogram.samples
             (Histogram.init record_call "latency" [] None None None)
           ++ [PyInt 1])
          (Some 1699999995%float)).
Proof.
  apply (sample_multiplicity_is_truncated Py3
           (Counter.init record_call "hits" [] None None)
           (Histogram.init record_call "latency" [] None None None)
           (PyInt 1) (PyFloat 0.6) None 1699999995%float
           (PyFloat (1 / 0.6)) 1 (PyInt 1) (PyInt 1));
    vm_compute; reflexivity.
Defined.

(** ** Further properties of the accumulators *)

Section RunInvariant.
Context {S V R I : Type} (M : Metric S V R) (f : S -> I).

(** What every [sample] and every [flush] leaves alone, a whole run
    leaves alone. *)
Lemma run_preserves :
  (forall s v r t now, f (sample s v r t now).2 = f s) ->
  (forall s t i, f (flush s t i).2 = f s) ->
  forall cs s, f (run M s cs).2 = f s.
Proof.
  intros Hs Hf. induction cs as [|c cs IH]; intros s; [done|].
  simpl. destruct (step M s c) as [o s1] eqn:E.
  specialize (IH s1). destruct (run M s1 cs) as [os s2]. simpl in *.
  rewrite IH. destruct c; simpl in E.
  - specialize (Hs s value sample_rate timestamp now).
    destruct (sample s value sample_rate timestamp now). injection E as _ <-. done.
  - specialize (Hf s timestamp interval).
    destruct (flush s timestamp interval). injection E as _ <-. done.
Qed.
End RunInvariant.

Section IdentityFacts.
Context {R K : Type} `{Countable K} (ver : pyver).

(** Identity fields.  No sequence of [sample] and [flush] calls, returning
    or raising, changes the formatter, the name, the tags, the hostname or
    the device name of an accumulator, nor the aggregates and percentiles
    a [Histogram] was configured with. *)
Theorem identity_never_changes (g : Gauge.t R) (b : BucketGauge.t R)
    (c : Count.t R) (m : MonotonicCount.t R) (n : Counter.t R)
    (h : Histogram.t R) (s : Set_.t R K) (r : Rate.t R)
    (cs : list (call pynum)) (ks : list (call K)) :
  gauge_identity (run Gauge.metric g cs).2 = gauge_identity g
  /\ gauge_identity (run BucketGauge.metric b cs).2 = gauge_identity b
  /\ count_identity (run Count.metric c cs).2 = count_identity c
  /\ monotonic_count_identity (run MonotonicCount.metric m cs).2
     = monotonic_count_identity m
  /\ counter_identity (run (Counter.metric ver) n cs).2 = counter_identity n
  /\ histogram_identity (run (Histogram.metric ver) h cs).2
     = histogram_identity h
  /\ set_identity (run Set_.metric s ks).2 = set_identity s
  /\ rate_identity (run (Rate.metric ver) r cs).2 = rate_identity r.
Proof.
  repeat split; apply run_preserves; simpl; intros.
  - reflexivity.
  - unfold Gauge.flush. by destruct (Gauge.value _).
  - reflexivity.
  - unfold BucketGauge.flush. by destruct (Gauge.value _).
  - unfold Count.sample. by destruct (Py.add _ _).
  - unfold Count.flush. by destruct (Count.value _).
  - unfold MonotonicCount.sample.
    destruct (MonotonicCount.curr_counter _), (MonotonicCount.prev_counter _);
      simpl; try done;
      match goal with |- context [mbind ?k ?x] => destruct x; simpl; try done end;
      by match goal with |- context [Py.add ?a ?b] => destruct (Py.add a b) end.
  - unfold MonotonicCount.flush. by destruct (MonotonicCount.count _).
  - unfold Counter.sample.
    by match goal with |- context [match ?x with Returned _ => _ | Raised _ => _ end] =>
         destruct x end.
  - reflexivity.
  - unfold Histogram.sample.
    by match goal with |- context [match ?x with Returned _ => _ | Raised _ => _ end] =>
         destruct x end.
  - unfold Histogram.flush. destruct (Histogram.count _ =? 0); [done|].
    by destruct (Histogram.summarize _ _ _ _ _).
  - reflexivity.
  - unfold Set_.flush. by destruct (decide _).
  - unfold Rate.sample. by destruct (Py.Z_of_float _).
  - unfold Rate.flush. by destruct (_ <? _)%nat.
Qed.

(** No exception leaves [flush].  For [Gauge], [BucketGauge], [Count],
    [MonotonicCount], [Set] and [Rate], [flush] returns in every state and
    for every timestamp and interval, and what it returns holds at most
    one record. *)
Theorem flush_returns_at_most_one_record (g : Gauge.t R) (b : BucketGauge.t R)
    (c : Count.t R) (m : MonotonicCount.t R) (s : Set_.t R K) (r : Rate.t R)
    ts interval :
  (exists l, (Gauge.flush g ts interval).1 = Returned l /\ (length l <= 1)%nat)
  /\ (exists l, (BucketGauge.flush b ts interval).1 = Returned l
                /\ (length l <= 1)%nat)
  /\ (exists l, (Count.flush c ts interval).1 = Returned l /\ (length l <= 1)%nat)
  /\ (exists l, (MonotonicCount.flush m ts interval).1 = Returned l
                /\ (length l <= 1)%nat)
  /\ (exists l, (Set_.flush s ts interval).1 = Returned l /\ (length l <= 1)%nat)
  /\ (exists l, (Rate.flush ver r ts interval).1 = Returned l
                /\ (length l <= 1)%nat).
Proof.
  repeat split.
  - unfold Gauge.flush. destruct (Gauge.value g); eexists; (split; [done|simpl; lia]).
  - unfold BucketGauge.flush. destruct (Gauge.value b); eexists; (split; [done|simpl; lia]).
  - unfold Count.flush. destruct (Count.value c); eexists; (split; [done|simpl; lia]).
  - unfold MonotonicCount.flush.
    destruct (MonotonicCount.count m); eexists; (split; [done|simpl; lia]).
  - unfold Set_.flush. destruct (decide _); eexists; (split; [done|simpl; lia]).
  - unfold Rate.flush. destruct (_ <? _)%nat; simpl.
    + eexists; (split; [done|simpl; lia]).
    + match goal with |- context [match ?x with Returned _ => _ | Raised _ => _ end] =>
        destruct x end; eexists; (split; [done|simpl; lia]).
Qed.
End IdentityFacts.

Section DivisionByZeroFacts.
Context {R : Type} (ver : pyver).

(** A zero interval costs [Counter] its window.  [Counter.flush] with the
    interval [0] raises [ZeroDivisionError], and the [finally] clause has
    by then reset [value] to [0]: whatever was counted is dropped. *)
Theorem counter_flush_zero_interval_drops_count (c : Counter.t R) ts :
  Counter.flush ver c ts (PyInt 0)
  = (Raised ZeroDivisionError,
     Counter.update c (PyInt 0) (Counter.last_sample_time c)).
Proof.
  unfold Counter.flush. destruct ver, (Counter.value c); reflexivity.
Qed.

(** A zero sample rate.  With a sample rate that is zero, [Counter.sample]
    and [Histogram.sample] raise [ZeroDivisionError] and leave the
    accumulator as it was. *)
Theorem zero_sample_rate_raises (c : Counter.t R) (h : Histogram.t R)
    v sample_rate ts now :
  Py.truth sample_rate = false ->
  Counter.sample ver c v sample_rate ts now = (Raised ZeroDivisionError, c)
  /\ Histogram.sample ver h v sample_rate ts now = (Raised ZeroDivisionError, h).
Proof.
  intros Hz. unfold Counter.sample, Histogram.sample.
  assert (Py.div ver (PyInt 1) sample_rate = Raised ZeroDivisionError) as ->; [|done].
  destruct sample_rate as [z|f]; simpl in Hz.
  - apply negb_false_iff, Z.eqb_eq in Hz as ->. by destruct ver.
  - apply negb_false_iff in Hz. unfold Py.div.
    change (Py.as_float (PyInt 1)) with (Returned 1%float : outcome float).
    simpl. by rewrite Hz.
Qed.
End DivisionByZeroFacts.

(** A zero sample rate at work: the float [0.0]. *)
Lemma zero_sample_rate_witness :
  Py.truth (PyFloat 0) = false
  /\ Counter.sample Py3 (counted_once Py3) (PyInt 1) (PyFloat 0) None
       1699999996%float
     = (Raised ZeroDivisionError, counted_once Py3)
  /\ Histogram.sample Py3 (fed_histogram Py3) (PyInt 1) (PyFloat 0) None
       1699999996%float
     = (Raised ZeroDivisionError, fed_histogram Py3).
Proof.
  split; [reflexivity|].
  apply (zero_sample_rate_raises Py3 (counted_once Py3) (fed_histogram Py3)).
  reflexivity.
Defined.

Section SortFacts.



End SortFacts.


Section HistogramFlushFacts.
Context {R : Type} (ver : pyver).
Implicit Types (h : Histogram.t R).



End HistogramFlushFacts.



Section RunPredicate.
Context {S V R : Type} (M : Metric S V R) (P : S -> Prop).

Lemma run_invariant :
  (forall s v r t now, P s -> P (sample s v r t now).2) ->
  (forall s t i, P s -> P (flush s t i).2) ->
  forall cs s, P s -> P (run M s cs).2.
Proof.
  intros Hs Hf. induction cs as [|c cs IH]; intros s Hp; [done|].
  simpl. destruct (step M s c) as [o s1] eqn:E.
  assert (P s1) as Hp1.
  { destruct c; simpl in E.
    - specialize (Hs s value sample_rate timestamp now Hp).
      destruct (sample s value sample_rate timestamp now). by injection E as _ <-.
    - specialize (Hf s timestamp interval Hp).
      destruct (flush s timestamp interval). by injection E as _ <-. }
  specialize (IH s1 Hp1). by destruct (run M s1 cs).
Qed.
End RunPredicate.

Section CountFacts.
Context {R : Type}.
Implicit Types (c : Count.t R) (l : list (sample_args Z)).

Lemma or_int_zero (oa : option Z) :
  Py.or (PyInt <$> oa) (PyInt 0) = PyInt (default 0 oa).
Proof.
  destruct oa as [a|]; simpl; [|done].
  destruct (a =? 0) eqn:E; simpl; [|done]. by apply Z.eqb_eq in E as ->.
Qed.

Lemma count_run_ints l c (oa : option Z) :
  Count.value c = PyInt <$> oa ->
  (run Count.metric c (map int_call l)).1 = map (fun _ => Sampled (Returned ())) l
  /\ Count.value (run Count.metric c (map int_call l)).2
     = PyInt <$> (match l with
                  | [] => oa
                  | _ => Some (default 0 oa + total (values_of l))
                  end)
  /\ count_identity (run Count.metric c (map int_call l)).2 = count_identity c.
Proof.
  revert c oa; induction l as [|a l IH]; intros c oa Hv; [done|].
  simpl. unfold Count.sample. rewrite Hv, or_int_zero. simpl.
  match goal with |- context [run Count.metric ?s _] => set (c1 := s) end.
  destruct (IH c1 (Some (default 0 oa + a.1.1.1)) eq_refl) as (E1 & E2 & E3).
  destruct (run Count.metric c1 (map int_call l)) as [os c2]. simpl in *.
  rewrite E1, E2, E3. repeat split.
  destruct l; simpl; [by rewrite Z.add_0_r|]. f_equal. f_equal. lia.
Qed.

(** Count adds up.  A [Count] whose value is unset, sampled with the
    integers of a non-empty list and flushed, emits exactly one COUNT
    record whose value is the sum of the list (no division by the
    interval), and its value is unset again, so the next window starts
    from nothing. *)
Theorem count_sums_integer_samples c l ts interval :
  Count.value c = None ->
  l <> [] ->
  (run Count.metric c (map int_call l ++ [CallFlush ts interval])).1
  = map (fun _ => Sampled (Returned ())) l ++
    [Flushed (Returned [Count.formatter c
       {| Kw.metric := Count.name c;
          Kw.value := PyInt (total (values_of l));
          Kw.timestamp := ts;
          Kw.tags := Count.tags c;
          Kw.hostname := Count.hostname c;
          Kw.device_name := Passed (Count.device_name c);
          Kw.metric_type := COUNT;
          Kw.interval := interval |}])]
  /\ Count.value
       (run Count.metric c (map int_call l ++ [CallFlush ts interval])).2
     = None.
Proof.
  intros Hv Hl. rewrite run_app.
  destruct (count_run_ints l c None Hv) as (E1 & E2 & E3).
  destruct (run Count.metric c (map int_call l)) as [os c1]. simpl in *.
  destruct l as [|a l]; [done|]. simpl in E2.
  unfold Count.flush. rewrite E2. simpl.
  injection E3 as -> -> -> -> ->. by rewrite E1.
Qed.
End CountFacts.

(** [sample(3); sample(4); flush(interval=10)] reports 7. *)
Lemma count_sums_witness :
  (run Count.metric (Count.init record_call "errors" [] None None)
     (map int_call three_and_four
      ++ [CallFlush (PyInt 1700000000) (PyInt 10)])).1
  = map (fun _ => Sampled (Returned ())) three_and_four ++
    [Flushed (Returned [record_call
       {| Kw.metric := "errors";
          Kw.value := PyInt 7;
          Kw.timestamp := PyInt 1700000000;
          Kw.tags := [];
          Kw.hostname := None;
          Kw.device_name := Passed None;
          Kw.metric_type := COUNT;
          Kw.interval := PyInt 10 |}])].
Proof.
  apply (count_sums_integer_samples (Count.init record_call "errors" [] None None)
           three_and_four);
    [reflexivity|discriminate].
Defined.

Section CounterFacts.
Context {R : Type} (ver : pyver).
Implicit Types (c : Counter.t R) (l : list (sample_args Z)) (ks : list Z).

Lemma counter_run_ints l ks c a :
  Counter.value c = PyInt a ->
  Forall2 (fun x k => truncated_multiplicity ver x.1.1.2 = Returned k) l ks ->
  (run (Counter.metric ver) c (map int_call l)).1
  = map (fun _ => Sampled (Returned ())) l
  /\ Counter.value (run (Counter.metric ver) c (map int_call l)).2
     = PyInt (a + total (zip_with Z.mul (values_of l) ks))
  /\ counter_identity (run (Counter.metric ver) c (map int_call l)).2
     = counter_identity c.
Proof.
  intros Hv Hk. revert c a Hv.
  induction Hk as [|x k l ks Hx Hk IH]; intros c a Hv.
  - simpl. by rewrite Hv, Z.add_0_r.
  - simpl. unfold Counter.sample. unfold truncated_multiplicity in Hx.
    destruct (Py.div ver (PyInt 1) x.1.1.2) as [q|]; simpl in *; [|done].
    rewrite Hx, Hv. simpl.
    match goal with |- context [run (Counter.metric ver) ?s _] => set (c1 := s) end.
    destruct (IH c1 (a + x.1.1.1 * k) eq_refl) as (E1 & E2 & E3).
    destruct (run (Counter.metric ver) c1 (map int_call l)) as [os c2].
    simpl in *. rewrite E1, E2, E3. repeat split. f_equal. lia.
Qed.

(** Counter weighs every sample.  On a [Counter] that holds an integer,
    each [sample(v, sample_rate)] with an integer [v] counts for
    [v * int(1 / sample_rate)]; the flush that follows divides the total
    by the interval, emits it as one RATE record (or raises what the
    division raises) and leaves the value at [0]. *)
Theorem counter_flushes_weighted_total c a l ks ts interval :
  Counter.value c = PyInt a ->
  Forall2 (fun x k => truncated_multiplicity ver x.1.1.2 = Returned k) l ks ->
  (run (Counter.metric ver) c (map int_call l ++ [CallFlush ts interval])).1
  = map (fun _ => Sampled (Returned ())) l ++
    [Flushed
       (v ← Py.div ver (PyInt (a + total (zip_with Z.mul (values_of l) ks)))
              interval;
        Returned [Counter.formatter c
          {| Kw.metric := Counter.name c;
             Kw.value := v;
             Kw.timestamp := ts;
             Kw.tags := Counter.tags c;
             Kw.hostname := Counter.hostname c;
             Kw.device_name := Passed (Counter.device_name c);
             Kw.metric_type := RATE;
             Kw.interval := interval |}])]
  /\ Counter.value
       (run (Counter.metric ver) c (map int_call l ++ [CallFlush ts interval])).2
     = PyInt 0.
Proof.
  intros Hv Hk. rewrite run_app.
  destruct (counter_run_ints l ks c a Hv Hk) as (E1 & E2 & E3).
  destruct (run (Counter.metric ver) c (map int_call l)) as [os c1]. simpl in *.
  unfold Counter.flush. rewrite E1, E2. simpl.
  injection E3 as -> -> -> -> ->. done.
Qed.
End CounterFacts.

(** Three events, one of them seen at the sample rate 0.5 and so counted
    twice, over a window of 2 seconds: the rate is 4 / 2. *)
Lemma counter_weighted_total_witness :
  (run (Counter.metric Py3) (Counter.init record_call "hits" [] None None)
     (map int_call three_events
      ++ [CallFlush (PyInt 1700000000) (PyInt 2)])).1
  = map (fun _ => Sampled (Returned ())) three_events ++
    [Flushed
       (v ← Py.div Py3 (PyInt (0 + total (zip_with Z.mul [1; 1; 1] [1; 2; 1])))
              (PyInt 2);
        Returned [record_call
          {| Kw.metric := "hits";
             Kw.value := v;
             Kw.timestamp := PyInt 1700000000;
             Kw.tags := [];
             Kw.hostname := None;
             Kw.device_name := Passed None;
             Kw.metric_type := RATE;
             Kw.interval := PyInt 2 |}])].
Proof.
  apply (counter_flushes_weighted_total Py3
           (Counter.init record_call "hits" [] None None) 0
           three_events [1; 2; 1]);
    [reflexivity|].
  repeat constructor.
Defined.

Section MonotonicCountRuns.
Context {R : Type}.
Implicit Types (m : MonotonicCount.t R) (l : list (sample_args Z)).

Lemma increase_nonneg a vs : 0 <= increase a vs.
Proof.
  revert a; induction vs as [|x vs IH]; intros a; simpl; [lia|].
  specialize (IH x). lia.
Qed.

Lemma last_default (a x : Z) vs :
  default x (last vs) = default a (last (x :: vs)).
Proof.
  destruct vs as [|y vs]; [done|]. rewrite last_cons_cons.
  destruct (last (y :: vs)) eqn:E; [done|]. by apply last_None in E.
Qed.

Lemma increase_climbs a vs :
  climbs a vs -> increase a vs = default a (last vs) - a.
Proof.
  revert a; induction vs as [|x vs IH]; intros a; [simpl; lia|].
  cbn [climbs increase]. intros [Hax Hc]. rewrite (IH x Hc).
  destruct vs as [|y vs]; [simpl; lia|].
  rewrite <- (last_default a x (y :: vs)).
  destruct (last (y :: vs)) eqn:E; simpl; [lia|]. by apply last_None in E.
Qed.

Lemma max0_int d : Py.max0 (PyInt d) = PyInt (Z.max 0 d).
Proof.
  unfold Py.max0. simpl. destruct (0 <? d) eqn:E.
  - apply Z.ltb_lt in E. f_equal. lia.
  - apply Z.ltb_ge in E. f_equal. lia.
Qed.

Lemma monotonic_count_sample_int m a (oc : option Z) x rate t now :
  baseline m = Some (PyInt a) ->
  MonotonicCount.count m = PyInt <$> oc ->
  (MonotonicCount.sample m (PyInt x) rate t now).1 = Returned ()
  /\ MonotonicCount.curr_counter (MonotonicCount.sample m (PyInt x) rate t now).2
     = Some (PyInt x)
  /\ MonotonicCount.count (MonotonicCount.sample m (PyInt x) rate t now).2
     = Some (PyInt (default 0 oc + Z.max 0 (x - a)))
  /\ monotonic_count_identity (MonotonicCount.sample m (PyInt x) rate t now).2
     = monotonic_count_identity m.
Proof.
  unfold baseline, MonotonicCount.sample. intros Hb Hc.
  destruct (MonotonicCount.curr_counter m) as [c|]; simpl.
  - injection Hb as ->. simpl. rewrite max0_int, Hc, or_int_zero. done.
  - rewrite Hb. simpl. rewrite max0_int, Hc, or_int_zero. done.
Qed.

Lemma monotonic_count_run_ints l m a (oc : option Z) :
  baseline m = Some (PyInt a) ->
  MonotonicCount.count m = PyInt <$> oc ->
  (run MonotonicCount.metric m (map int_call l)).1
  = map (fun _ => Sampled (Returned ())) l
  /\ baseline (run MonotonicCount.metric m (map int_call l)).2
     = Some (PyInt (default a (last (values_of l))))
  /\ MonotonicCount.count (run MonotonicCount.metric m (map int_call l)).2
     = PyInt <$> (match l with
                  | [] => oc
                  | _ => Some (default 0 oc + increase a (values_of l))
                  end)
  /\ (l <> [] ->
      MonotonicCount.curr_counter (run MonotonicCount.metric m (map int_call l)).2
      = Some (PyInt (default a (last (values_of l)))))
  /\ monotonic_count_identity (run MonotonicCount.metric m (map int_call l)).2
     = monotonic_count_identity m.
Proof.
  revert m a oc; induction l as [|x l IH]; intros m a oc Hb Hc; [done|].
  simpl.
  destruct (monotonic_count_sample_int m a oc x.1.1.1 x.1.1.2 x.1.2 x.2 Hb Hc)
    as (S1 & S2 & S3 & S4).
  destruct (MonotonicCount.sample m (PyInt x.1.1.1) x.1.1.2 x.1.2 x.2)
    as [o m1]. simpl in *. subst o.
  assert (baseline m1 = Some (PyInt x.1.1.1)) as Hb1
    by (unfold baseline; by rewrite S2).
  destruct (IH m1 x.1.1.1 (Some (default 0 oc + Z.max 0 (x.1.1.1 - a))) Hb1 S3)
    as (E1 & E2 & E3 & E4 & E5).
  destruct (run MonotonicCount.metric m1 (map int_call l)) as [os m2] eqn:Er.
  simpl in *. rewrite E1, E2, E3, E5, S4, <- (last_default a).
  split; [done|]. split; [done|]. split; [|split; [|done]].
  - destruct l; simpl; do 2 f_equal; lia.
  - intros _. destruct l as [|y l]; [|by apply E4].
    simpl in Er. by injection Er as _ <-.
Qed.

Lemma monotonic_count_window m a l ts interval :
  baseline m = Some (PyInt a) ->
  MonotonicCount.count m = None ->
  l <> [] ->
  (run MonotonicCount.metric m (map int_call l ++ [CallFlush ts interval])).1
  = map (fun _ => Sampled (Returned ())) l ++
    [Flushed (Returned [MonotonicCount.formatter m
       {| Kw.hostname := MonotonicCount.hostname m;
          Kw.device_name := Passed (MonotonicCount.device_name m);
          Kw.tags := MonotonicCount.tags m;
          Kw.metric := MonotonicCount.name m;
          Kw.value := PyInt (increase a (values_of l));
          Kw.timestamp := ts;
          Kw.metric_type := COUNT;
          Kw.interval := interval |}])]
  /\ baseline
       (run MonotonicCount.metric m (map int_call l ++ [CallFlush ts interval])).2
     = Some (PyInt (default a (last (values_of l))))
  /\ MonotonicCount.count
       (run MonotonicCount.metric m (map int_call l ++ [CallFlush ts interval])).2
     = None.
Proof.
  intros Hb Hc Hl. rewrite run_app.
  destruct (monotonic_count_run_ints l m a None Hb Hc) as (E1 & E2 & E3 & E4 & E5).
  destruct (run MonotonicCount.metric m (map int_call l)) as [os m1]. simpl in *.
  destruct l as [|x l]; [done|]. simpl in E3.
  unfold MonotonicCount.flush. rewrite E3. simpl.
  injection E5 as -> -> -> -> ->. rewrite E1. repeat split.
  unfold baseline. simpl. by rewrite E4.
Qed.

(** MonotonicCount measures against the previous window.  When the last
    reading of earlier windows is [a] and nothing is pending, a window of
    integer readings ends in exactly one COUNT record whose value is the
    sum of the increases from [a] along the readings, every decrease
    counting as zero; the value is never negative, and the last reading
    of the window is what the next window is measured against. *)
Theorem monotonic_count_emits_increases m a l ts interval :
  baseline m = Some (PyInt a) ->
  MonotonicCount.count m = None ->
  l <> [] ->
  (run MonotonicCount.metric m (map int_call l ++ [CallFlush ts interval])).1
  = map (fun _ => Sampled (Returned ())) l ++
    [Flushed (Returned [MonotonicCount.formatter m
       {| Kw.hostname := MonotonicCount.hostname m;
          Kw.device_name := Passed (MonotonicCount.device_name m);
          Kw.tags := MonotonicCount.tags m;
          Kw.metric := MonotonicCount.name m;
          Kw.value := PyInt (increase a (values_of l));
          Kw.timestamp := ts;
          Kw.metric_type := COUNT;
          Kw.interval := interval |}])]
  /\ 0 <= increase a (values_of l)
  /\ baseline
       (run MonotonicCount.metric m (map int_call l ++ [CallFlush ts interval])).2
     = Some (PyInt (default a (last (values_of l))))
  /\ MonotonicCount.count
       (run MonotonicCount.metric m (map int_call l ++ [CallFlush ts interval])).2
     = None.
Proof.
  intros Hb Hc Hl.
  destruct (monotonic_count_window m a l ts interval Hb Hc Hl) as (E1 & E2 & E3).
  repeat split; try done. apply increase_nonneg.
Qed.

(** A counter that only grows.  When the readings of a window never step
    down from the last reading [a] of earlier windows, the COUNT record of
    the window carries the last reading minus [a]: the series telescopes
    across samples and across flushes. *)
Theorem monotonic_count_telescopes m a l ts interval :
  baseline m = Some (PyInt a) ->
  MonotonicCount.count m = None ->
  l <> [] ->
  climbs a (values_of l) ->
  (run MonotonicCount.metric m (map int_call l ++ [CallFlush ts interval])).1
  = map (fun _ => Sampled (Returned ())) l ++
    [Flushed (Returned [MonotonicCount.formatter m
       {| Kw.hostname := MonotonicCount.hostname m;
          Kw.device_name := Passed (MonotonicCount.device_name m);
          Kw.tags := MonotonicCount.tags m;
          Kw.metric := MonotonicCount.name m;
          Kw.value := PyInt (default a (last (values_of l)) - a);
          Kw.timestamp := ts;
          Kw.metric_type := COUNT;
          Kw.interval := interval |}])].
Proof.
  intros Hb Hc Hl Hup.
  destruct (monotonic_count_window m a l ts interval Hb Hc Hl) as (E1 & _).
  by rewrite E1, increase_climbs.
Qed.

Lemma monotonic_count_sample_sets_reading m v rate t now :
  MonotonicCount.curr_counter (MonotonicCount.sample m v rate t now).2 = Some v.
Proof.
  unfold MonotonicCount.sample.
  destruct (MonotonicCount.curr_counter m), (MonotonicCount.prev_counter m);
    simpl; try done;
    match goal with |- context [mbind ?k ?x] => destruct x; simpl; try done end;
    by match goal with |- context [Py.add ?a ?b] => destruct (Py.add a b) end.
Qed.

Lemma reachable_pending_has_reading (s0 : MonotonicCount.t R) cs :
  pending_has_reading s0 ->
  pending_has_reading (run MonotonicCount.metric s0 cs).2.
Proof.
  apply run_invariant; unfold pending_has_reading; simpl.
  - intros s v r t now _ _. by rewrite monotonic_count_sample_sets_reading.
  - intros s t i Hs. unfold MonotonicCount.flush.
    destruct (MonotonicCount.count s) eqn:E; simpl; [done|]. by rewrite E.
Qed.

(** A flush never loses the baseline.  In every state that a fresh
    [MonotonicCount] can reach by [sample] and [flush] calls, whether they
    return or raise, a [flush] leaves the reading that the next [sample]
    is measured against as it was: idle windows and windows with a single
    reading do not break the series. *)
Theorem monotonic_count_flush_keeps_baseline (formatter : Kw.t -> R) name tags
    hostname device_name (cs : list (call pynum)) ts interval :
  baseline
    (MonotonicCount.flush
       (run MonotonicCount.metric
          (MonotonicCount.init formatter name tags hostname device_name) cs).2
       ts interval).2
  = baseline
      (run MonotonicCount.metric
         (MonotonicCount.init formatter name tags hostname device_name) cs).2.
Proof.
  pose proof (reachable_pending_has_reading
    (MonotonicCount.init formatter name tags hostname device_name) cs) as Hinv.
  destruct (run MonotonicCount.metric _ cs) as [os m]. simpl in *.
  assert (pending_has_reading m) as Hm by (apply Hinv; intros H; by simpl in H).
  unfold pending_has_reading in Hm. unfold MonotonicCount.flush, baseline.
  destruct (MonotonicCount.count m) eqn:Ec; simpl; [|done].
  destruct (MonotonicCount.curr_counter m); [done|]. by destruct Hm.
Qed.
End MonotonicCountRuns.

(** A restarted counter: after the baseline 100, the readings 10, 15, 12
    and 20 add up to 0 + 5 + 0 + 8. *)
Lemma monotonic_count_increases_witness :
  (run MonotonicCount.metric warm_monotonic_count
     (map int_call four_readings ++ [CallFlush (PyInt 1700000010) (PyInt 10)])).1
  = map (fun _ => Sampled (Returned ())) four_readings ++
    [Flushed (Returned [record_call
       {| Kw.hostname := None;
          Kw.device_name := Passed None;
          Kw.tags := [];
          Kw.metric := "requests";
          Kw.value := PyInt 13;
          Kw.timestamp := PyInt 1700000010;
          Kw.metric_type := COUNT;
          Kw.interval := PyInt 10 |}])]
  /\ 0 <= increase 100 (values_of four_readings)
  /\ baseline
       (run MonotonicCount.metric warm_monotonic_count
          (map int_call four_readings
           ++ [CallFlush (PyInt 1700000010) (PyInt 10)])).2
     = Some (PyInt 20)
  /\ MonotonicCount.count
       (run MonotonicCount.metric warm_monotonic_count
          (map int_call four_readings
           ++ [CallFlush (PyInt 1700000010) (PyInt 10)])).2
     = None.
Proof.
  apply (monotonic_count_emits_increases warm_monotonic_count 100 four_readings);
    [reflexivity|reflexivity|discriminate].
Defined.

(** A growing counter: after the baseline 100, the readings 105, 105 and
    130 report 30. *)
Lemma monotonic_count_telescopes_witness :
  (run MonotonicCount.metric warm_monotonic_count
     (map int_call rising_readings ++ [CallFlush (PyInt 1700000010) (PyInt 10)])).1
  = map (fun _ => Sampled (Returned ())) rising_readings ++
    [Flushed (Returned [record_call
       {| Kw.hostname := None;
          Kw.device_name := Passed None;
          Kw.tags := [];
          Kw.metric := "requests";
          Kw.value := PyInt 30;
          Kw.timestamp := PyInt 1700000010;
          Kw.metric_type := COUNT;
          Kw.interval := PyInt 10 |}])].
Proof.
  apply (monotonic_count_telescopes warm_monotonic_count 100 rising_readings);
    [reflexivity|reflexivity|discriminate|].
  simpl. lia.
Defined.

Section TimestampFacts.
Context {S V R : Type} (M : Metric S V R).

(** A [sample] that does not look at its timestamp argument makes whole
    runs independent of the timestamps passed to it. *)
Lemma run_forget_timestamp :
  (forall s v r t t' now, sample s v r t now = sample s v r t' now) ->
  forall cs1 cs2 s,
    map forget_timestamp cs1 = map forget_timestamp cs2 ->
    run M s cs1 = run M s cs2.
Proof.
  intros Hs. induction cs1 as [|c1 cs1 IH]; intros [|c2 cs2] s Heq;
    try discriminate; [done|].
  simpl in Heq. injection Heq as Hc Hcs. simpl.
  assert (step M s c1 = step M s c2) as ->.
  { destruct c1, c2; simpl in Hc; try discriminate.
    - injection Hc as -> -> ->. simpl. by rewrite (Hs s _ _ timestamp timestamp0).
    - by injection Hc as -> ->. }
  destruct (step M s c2) as [o s1]. by rewrite (IH cs2 s1 Hcs).
Qed.
End TimestampFacts.

Section SampleTimestampFacts.
Context {R K : Type} `{Countable K} (ver : pyver).

(** Who reads the sample timestamp.  [Count], [MonotonicCount],
    [Counter], [Histogram], [Set] and [Rate] never look at the timestamp
    argument of [sample]: two call sequences that agree in everything but
    those timestamps are answered alike, call by call, and leave the
    accumulator in the same state.  ([Rate] stamps its samples with its
    own clock reading.) *)
Theorem sample_timestamp_ignored (c : Count.t R) (m : MonotonicCount.t R)
    (n : Counter.t R) (h : Histogram.t R) (s : Set_.t R K) (r : Rate.t R)
    (cs1 cs2 : list (call pynum)) (ks1 ks2 : list (call K)) :
  map forget_timestamp cs1 = map forget_timestamp cs2 ->
  map forget_timestamp ks1 = map forget_timestamp ks2 ->
  run Count.metric c cs1 = run Count.metric c cs2
  /\ run MonotonicCount.metric m cs1 = run MonotonicCount.metric m cs2
  /\ run (Counter.metric ver) n cs1 = run (Counter.metric ver) n cs2
  /\ run (Histogram.metric ver) h cs1 = run (Histogram.metric ver) h cs2
  /\ run Set_.metric s ks1 = run Set_.metric s ks2
  /\ run (Rate.metric ver) r cs1 = run (Rate.metric ver) r cs2.
Proof.
  intros Hcs Hks.
  repeat split; apply run_forget_timestamp; trivial; reflexivity.
Qed.
End SampleTimestampFacts.

(** Two runs of [sample; sample; flush] that pass different timestamps to
    [sample]. *)
Lemma sample_timestamp_ignored_witness :
  run Count.metric (Count.init record_call "m" [] None None)
    (stamped None None (PyInt 3) (PyInt 4))
  = run Count.metric (Count.init record_call "m" [] None None)
      (stamped (Some (PyInt 1699999000)) (Some (PyInt 0)) (PyInt 3) (PyInt 4))
  /\ run MonotonicCount.metric (MonotonicCount.init record_call "m" [] None None)
       (stamped None None (PyInt 3) (PyInt 4))
     = run MonotonicCount.metric (MonotonicCount.init record_call "m" [] None None)
         (stamped (Some (PyInt 1699999000)) (Some (PyInt 0)) (PyInt 3) (PyInt 4))
  /\ run (Counter.metric Py3) (Counter.init record_call "m" [] None None)
       (stamped None None (PyInt 3) (PyInt 4))
     = run (Counter.metric Py3) (Counter.init record_call "m" [] None None)
         (stamped (Some (PyInt 1699999000)) (Some (PyInt 0)) (PyInt 3) (PyInt 4))
  /\ run (Histogram.metric Py3)
       (Histogram.init record_call "m" [] None None None)
       (stamped None None (PyInt 3) (PyInt 4))
     = run (Histogram.metric Py3)
         (Histogram.init record_call "m" [] None None None)
         (stamped (Some (PyInt 1699999000)) (Some (PyInt 0)) (PyInt 3) (PyInt 4))
  /\ run Set_.metric (Set_.init record_call "m" [] None None)
       (stamped None None "a"%string "b"%string)
     = run Set_.metric (Set_.init record_call "m" [] None None)
         (stamped (Some (PyInt 1699999000)) (Some (PyInt 0)) "a"%string "b"%string)
  /\ run (Rate.metric Py3) (Rate.init record_call "m" [] None None)
       (stamped None None (PyInt 3) (PyInt 4))
     = run (Rate.metric Py3) (Rate.init record_call "m" [] None None)
         (stamped (Some (PyInt 1699999000)) (Some (PyInt 0)) (PyInt 3) (PyInt 4)).
Proof.
  apply (sample_timestamp_ignored Py3); reflexivity.
Defined.

Section GaugeTimestampFacts.
Context {R : Type}.
Implicit Types (g : Gauge.t R) (before : list (sample_args pynum)).

(** Gauge reports when the value was observed.  When the last [sample]
    call before a [flush] carried a timestamp that is not zero, the one
    record the [flush] emits is stamped with that timestamp, not with the
    timestamp of the [flush]. *)
Theorem gauge_reports_sample_timestamp g before v rate x now ts interval :
  Py.truth x = true ->
  (run Gauge.metric g
     (map sample_call before ++
        [CallSample v rate (Some x) now; CallFlush ts interval])).1
  = map (fun _ => Sampled (Returned ())) before ++
      [Sampled (Returned ());
       Flushed (Returned [Gauge.formatter g
         {| Kw.metric := Gauge.name g;
            Kw.timestamp := x;
            Kw.value := v;
            Kw.tags := Gauge.tags g;
            Kw.hostname := Gauge.hostname g;
            Kw.device_name := Passed (Gauge.device_name g);
            Kw.metric_type := GAUGE;
            Kw.interval := interval |}])].
Proof.
  intros Hx. rewrite gauge_run_then_sample_flush. simpl. by rewrite Hx.
Qed.

Lemma bucket_gauge_run_samples g before :
  run BucketGauge.metric g (map sample_call before)
  = run Gauge.metric g (map sample_call before).
Proof.
  revert g; induction before as [|a before IH]; intros g; [done|].
  simpl. by rewrite IH.
Qed.

(** BucketGauge reports at the window boundary.  Whatever [sample] calls
    came before and whatever timestamps they carried, the [flush] that
    follows a [sample] emits exactly one GAUGE record with the value of
    the last [sample] call, stamped with the timestamp of the [flush], and
    leaves the stored value unset. *)
Theorem bucket_gauge_reports_flush_timestamp g before v rate t now ts interval :
  (run BucketGauge.metric g
     (map sample_call before ++ [CallSample v rate t now; CallFlush ts interval])).1
  = map (fun _ => Sampled (Returned ())) before ++
      [Sampled (Returned ());
       Flushed (Returned [Gauge.formatter g
         {| Kw.metric := Gauge.name g;
            Kw.timestamp := ts;
            Kw.value := v;
            Kw.tags := Gauge.tags g;
            Kw.hostname := Gauge.hostname g;
            Kw.device_name := Passed (Gauge.device_name g);
            Kw.metric_type := GAUGE;
            Kw.interval := interval |}])]
  /\ Gauge.value
       (run BucketGauge.metric g
          (map sample_call before ++
             [CallSample v rate t now; CallFlush ts interval])).2
     = None.
Proof.
  rewrite run_app, bucket_gauge_run_samples.
  destruct (gauge_run_samples g before) as (E1 & E2 & E3 & E4 & E5 & E6).
  destruct (run Gauge.metric g (map sample_call before)) as [os g1].
  simpl in *. by rewrite E1, E2, E3, E4, E5, E6.
Qed.
End GaugeTimestampFacts.

(** A gauge sampled with the timestamp 1699999995 reports at 1699999995. *)
Lemma gauge_reports_sample_timestamp_witness :
  Py.truth (PyInt 1699999995) = true
  /\ (run Gauge.metric
        (Gauge.init record_call "load" [] None None 1699999990%float)
        (map sample_call ([] : list (sample_args pynum)) ++
           [CallSample (PyInt 7) (PyInt 1) (Some (PyInt 1699999995))
              1699999996%float;
            CallFlush (PyInt 1700000000) (PyInt 10)])).1
     = map (fun _ => Sampled (Returned ())) ([] : list (sample_args pynum)) ++
       [Sampled (Returned ());
        Flushed (Returned [record_call
          {| Kw.metric := "load";
             Kw.timestamp := PyInt 1699999995;
             Kw.value := PyInt 7;
             Kw.tags := [];
             Kw.hostname := None;
             Kw.device_name := Passed None;
             Kw.metric_type := GAUGE;
             Kw.interval := PyInt 10 |}])].
Proof.
  split; [reflexivity|].
  apply (gauge_reports_sample_timestamp
           (Gauge.init record_call "load" [] None None 1699999990%float) []).
  reflexivity.
Defined.

Section SetFacts.
Context {R K : Type} `{Countable K}.
Implicit Types (s : Set_.t R K) (l : list (sample_args K)).

Lemma set_run_samples l s :
  (run Set_.metric s (map sample_call l)).1
  = map (fun _ => Sampled (Returned ())) l
  /\ Set_.values (run Set_.metric s (map sample_call l)).2
     = list_to_set (map (fun a => a.1.1.1) l) ∪ Set_.values s
  /\ set_identity (run Set_.metric s (map sample_call l)).2 = set_identity s.
Proof.
  revert s; induction l as [|a l IH]; intros s.
  - simpl. repeat split. set_solver.
  - simpl.
    match goal with |- context [run Set_.metric ?x _] => set (s1 := x) end.
    destruct (IH s1) as (E1 & E2 & E3).
    destruct (run Set_.metric s1 (map sample_call l)) as [os s2]. simpl in *.
    rewrite E1, E2, E3. repeat split. set_solver.
Qed.

Lemma size_list_to_set_distinct (vs : list K) :
  size (list_to_set vs : gset K) = length (remove_dups vs).
Proof.
  rewrite <- (size_list_to_set (C := gset K) (remove_dups vs))
    by apply NoDup_remove_dups.
  f_equal. apply set_eq. intros x.
  by rewrite !elem_of_list_to_set, elem_of_remove_dups.
Qed.

(** Set counts distinct values.  A [Set] that holds nothing, sampled with
    the values of a non-empty list and flushed, emits exactly one GAUGE
    record whose value is the number of distinct values in the list,
    however often and in whatever order they were sampled, and holds
    nothing afterwards. *)
Theorem set_counts_distinct_values s l ts interval :
  Set_.values s = ∅ ->
  l <> [] ->
  (run Set_.metric s (map sample_call l ++ [CallFlush ts interval])).1
  = map (fun _ => Sampled (Returned ())) l ++
    [Flushed (Returned [Set_.formatter s
       {| Kw.hostname := Set_.hostname s;
          Kw.device_name := Passed (Set_.device_name s);
          Kw.tags := Set_.tags s;
          Kw.metric := Set_.name s;
          Kw.value :=
            PyInt (Z.of_nat (length (remove_dups (map (fun a => a.1.1.1) l))));
          Kw.timestamp := ts;
          Kw.metric_type := GAUGE;
          Kw.interval := interval |}])]
  /\ Set_.values
       (run Set_.metric s (map sample_call l ++ [CallFlush ts interval])).2
     = ∅.
Proof.
  intros Hv Hl. rewrite run_app.
  destruct (set_run_samples l s) as (E1 & E2 & E3).
  destruct (run Set_.metric s (map sample_call l)) as [os s1]. simpl in *.
  rewrite Hv, (right_id_L ∅ (∪)) in E2.
  unfold Set_.flush. rewrite E2.
  destruct (decide (list_to_set (map (fun a => a.1.1.1) l) = (∅ : gset K)))
    as [He|He].
  - destruct l as [|a l]; [done|]. simpl in He. set_solver.
  - simpl. injection E3 as -> -> -> -> ->.
    by rewrite E1, size_list_to_set_distinct.
Qed.
End SetFacts.

(** [sample("a"); sample("b"); sample("a"); flush()] reports 2. *)
Lemma set_counts_distinct_values_witness :
  (run Set_.metric (Set_.init record_call "users" [] None None)
     (map sample_call a_b_a ++ [CallFlush (PyInt 1700000000) (PyInt 10)])).1
  = map (fun _ => Sampled (Returned ())) a_b_a ++
    [Flushed (Returned [record_call
       {| Kw.hostname := None;
          Kw.device_name := Passed None;
          Kw.tags := [];
          Kw.metric := "users";
          Kw.value := PyInt 2;
          Kw.timestamp := PyInt 1700000000;
          Kw.metric_type := GAUGE;
          Kw.interval := PyInt 10 |}])].
Proof.
  destruct (set_counts_distinct_values
              (Set_.init record_call "users" [] None None) a_b_a
              (PyInt 1700000000) (PyInt 10) eq_refl ltac:(discriminate))
    as [E _].
  rewrite E. reflexivity.
Defined.

Section RateWindowFacts.
Context {R : Type} (ver : pyver).
Implicit Types (r : Rate.t R).

Lemma rate_flush_two r earlier s1 s2 ts interval :
  Rate.samples r = earlier ++ [s1; s2] ->
  Rate.flush ver r ts interval =
    (match Rate._rate ver s1 s2 with
     | Raised _ => Returned []
     | Returned val =>
         Returned [Rate.formatter r
           {| Kw.hostname := Rate.hostname r;
              Kw.device_name := Passed (Rate.device_name r);
              Kw.tags := Rate.tags r;
              Kw.metric := Rate.name r;
              Kw.value := val;
              Kw.timestamp := ts;
              Kw.metric_type := GAUGE;
              Kw.interval := interval |}]
     end,
     Rate.update r [s2] (Rate.last_sample_time r)).
Proof.
  intros Hs. unfold Rate.flush. rewrite Hs.
  assert ((length (earlier ++ [s1; s2]) <? 2)%nat = false) as ->.
  { apply Nat.ltb_ge. rewrite length_app. simpl. lia. }
  by rewrite index_second_last, index_last, last1_two.
Qed.

(** Rate looks at the two most recent samples only.  With two or more
    samples recorded, [flush] answers with the rate between the last two
    of them (or with nothing, if that rate is not defined), exactly as if
    the earlier samples had never been recorded, and it keeps the most
    recent sample alone. *)
Theorem rate_uses_last_two_samples r earlier s1 s2 ts interval :
  Rate.samples r = earlier ++ [s1; s2] ->
  (Rate.flush ver r ts interval).1
  = (Rate.flush ver (Rate.update r [s1; s2] (Rate.last_sample_time r))
       ts interval).1
  /\ Rate.samples (Rate.flush ver r ts interval).2 = [s2].
Proof.
  intros Hs. rewrite (rate_flush_two r earlier s1 s2 ts interval Hs).
  by rewrite (rate_flush_two (Rate.update r [s1; s2] (Rate.last_sample_time r))
                [] s1 s2 ts interval eq_refl).
Qed.

(** Rate spans the window boundary.  After a flush, one new sample is
    enough: the next flush answers with the rate between the sample kept
    from before the first flush and the new one, stamped by the clock at
    the second the new sample was taken. *)
Theorem rate_spans_flush r earlier s1 s2 ts interval v rate t now sec
    ts' interval' :
  Rate.samples r = earlier ++ [s1; s2] ->
  Py.Z_of_float now = Returned sec ->
  run (Rate.metric ver) r
    [CallFlush ts interval; CallSample v rate t now; CallFlush ts' interval']
  = ([Flushed (Rate.flush ver r ts interval).1;
      Sampled (Returned ());
      Flushed
        match Rate._rate ver s2 (sec, v) with
        | Raised _ => Returned []
        | Returned val =>
            Returned [Rate.formatter r
              {| Kw.hostname := Rate.hostname r;
                 Kw.device_name := Passed (Rate.device_name r);
                 Kw.tags := Rate.tags r;
                 Kw.metric := Rate.name r;
                 Kw.value := val;
                 Kw.timestamp := ts';
                 Kw.metric_type := GAUGE;
                 Kw.interval := interval' |}]
        end],
     Rate.update r [(sec, v)] (Some now)).
Proof.
  intros Hs Hsec.
  pose proof (rate_flush_two r earlier s1 s2 ts interval Hs) as H1.
  set (r1 := Rate.update r [s2] (Rate.last_sample_time r)) in *.
  assert (Rate.sample r1 v rate t now
          = (Returned (), Rate.update r1 ([] ++ [s2; (sec, v)]) (Some now))) as H2.
  { unfold Rate.sample. by rewrite Hsec. }
  pose proof (rate_flush_two (Rate.update r1 ([] ++ [s2; (sec, v)]) (Some now))
                [] s2 (sec, v) ts' interval' eq_refl) as H3.
  unfold run, step. cbn [flush sample Rate.metric].
  rewrite H1. cbv beta iota. rewrite H2. cbv beta iota. rewrite H3.
  reflexivity.
Qed.
End RateWindowFacts.

(** Three samples, the last two 5 seconds and 10 units apart. *)
Lemma rate_uses_last_two_samples_witness :
  Rate.samples five_seconds_apart
  = [(1699999980, PyInt 500)] ++ [(1699999990, PyInt 10); (1699999995, PyInt 20)]
  /\ (Rate.flush Py3 five_seconds_apart (PyInt 1700000000) (PyInt 10)).1
     = Returned [record_call
         {| Kw.hostname := None;
            Kw.device_name := Passed None;
            Kw.tags := [];
            Kw.metric := "bytes";
            Kw.value := PyFloat 2;
            Kw.timestamp := PyInt 1700000000;
            Kw.metric_type := GAUGE;
            Kw.interval := PyInt 10 |}]
  /\ Rate.samples
       (Rate.flush Py3 five_seconds_apart (PyInt 1700000000) (PyInt 10)).2
     = [(1699999995, PyInt 20)].
Proof.
  split; [reflexivity|].
  destruct (rate_uses_last_two_samples Py3 five_seconds_apart
              [(1699999980, PyInt 500)] (1699999990, PyInt 10)
              (1699999995, PyInt 20) (PyInt 1700000000) (PyInt 10) eq_refl)
    as [E1 E2].
  split; [|exact E2]. rewrite E1. vm_compute. reflexivity.
Defined.

(** One more sample, 10 seconds and 40 units after the one kept, reports
    the rate 4 at the second flush. *)
Lemma rate_spans_flush_witness :
  Rate.samples five_seconds_apart
  = [(1699999980, PyInt 500)] ++ [(1699999990, PyInt 10); (1699999995, PyInt 20)]
  /\ Py.Z_of_float 1700000005.5 = Returned 1700000005
  /\ (run (Rate.metric Py3) five_seconds_apart
        [CallFlush (PyInt 1700000000) (PyInt 10);
         CallSample (PyInt 60) (PyInt 1) None 1700000005.5%float;
         CallFlush (PyInt 1700000010) (PyInt 10)]).1
     = [Flushed (Rate.flush Py3 five_seconds_apart (PyInt 1700000000) (PyInt 10)).1;
        Sampled (Returned ());
        Flushed (Returned [record_call
          {| Kw.hostname := None;
             Kw.device_name := Passed None;
             Kw.tags := [];
             Kw.metric := "bytes";
             Kw.value := PyFloat 4;
             Kw.timestamp := PyInt 1700000010;
             Kw.metric_type := GAUGE;
             Kw.interval := PyInt 10 |}])].
Proof.
  split; [reflexivity|]. split; [vm_compute; reflexivity|].
  rewrite (rate_spans_flush Py3 five_seconds_apart
             [(1699999980, PyInt 500)] (1699999990, PyInt 10)
             (1699999995, PyInt 20) (PyInt 1700000000) (PyInt 10)
             (PyInt 60) (PyInt 1) None 1700000005.5%float 1700000005
             (PyInt 1700000010) (PyInt 10) eq_refl);
    vm_compute; reflexivity.
Defined.
